(** * Visualize_Profile.py: the derived metrics and session state of the
      NeuroSync dashboard

    A shallow embedding of [src/Visualize_Profile.py] and the properties its
    specification states about it.

    Modelling conventions.
    - A JSON value received from the backend is a [jval]; a Python [dict]
      with string keys is a [gmap string jval].
    - A Python [float] is a [pyfloat]: a finite value, carried as an exact
      rational, or one of [inf], [-inf], [nan].  Arithmetic on finite values
      is exact: binary64 rounding and overflow of finite results are not
      modelled.  Conversion of an [int] that is too large for a float raises
      [OverflowError], as in Python.
    - Text is ASCII: [lower] maps A-Z to a-z, whitespace is Python's ASCII
      whitespace (9-13, 28-32).
    - Code that raises returns [Raise e]; a [try ... except] is a match on
      the result.
    - Builtins whose code is outside the repository ([float] and [int] of a
      [str], [difflib.get_close_matches]) are the fields of the class
      [Builtins]; the static table [game_profiles.json] is a parameter.
    - Calls that only draw on the page ([st.markdown], [st.json],
      [st.bar_chart], [st.plotly_chart], [st.progress], the chart
      constructors of pandas and plotly, the display of the fields of a
      matched entry of the static table) are taken to return normally and
      are left out. *)

From Stdlib Require Import ZArith QArith Qround Qabs Qminmax Lqa Lia String Ascii List Bool.
From Stdlib Require Import DecimalString DecimalZ DecimalPos.
From stdpp Require Import gmap strings list.

#[local] Set Warnings "-register-all".

(* ================================================================== *)
(** * Python values *)
(* ================================================================== *)

(** The exceptions the modelled code can raise. *)
Inductive exn :=
| ValueError | TypeError | OverflowError | KeyError | IndexError
| AttributeError | JSONDecodeError | RequestException.

(** Result of a computation that may raise. *)
Inductive res (A : Type) :=
| Ok (a : A)
| Raise (e : exn).
Arguments Ok {A} a.
Arguments Raise {A} e.

#[global] Instance res_ret : MRet res := λ A a, Ok a.
#[global] Instance res_bind : MBind res := λ A B f m,
  match m with Ok a => f a | Raise e => Raise e end.

Definition is_ok {A} (r : res A) : bool :=
  match r with Ok _ => true | Raise _ => false end.

(** Python floats. *)
Inductive pyfloat :=
| Fin (q : Q)
| PInf
| NInf
| NaN.

Definition is_finite (f : pyfloat) : bool :=
  match f with Fin _ => true | _ => false end.

Definition Qltb (x y : Q) : bool := negb (Qle_bool y x).

(** [a < b] on floats: false as soon as one side is [nan]. *)
Definition flt (a b : pyfloat) : bool :=
  match a, b with
  | NaN, _ | _, NaN => false
  | Fin x, Fin y => Qltb x y
  | NInf, NInf => false
  | NInf, _ => true
  | _, NInf => false
  | PInf, _ => false
  | Fin _, PInf => true
  end.

Definition fadd (a b : pyfloat) : pyfloat :=
  match a, b with
  | NaN, _ | _, NaN => NaN
  | Fin x, Fin y => Fin (x + y)
  | PInf, NInf | NInf, PInf => NaN
  | PInf, _ | _, PInf => PInf
  | NInf, _ | _, NInf => NInf
  end.

(** Sign of a rational as a comparison with zero. *)
Definition Qsign (q : Q) : comparison := (0 ?= q)%Q.

Definition finf_times (positive_inf : bool) (q : Q) : pyfloat :=
  match Qsign q with
  | Eq => NaN
  | Lt => if positive_inf then PInf else NInf
  | Gt => if positive_inf then NInf else PInf
  end.

Definition fmul (a b : pyfloat) : pyfloat :=
  match a, b with
  | NaN, _ | _, NaN => NaN
  | Fin x, Fin y => Fin (x * y)
  | PInf, Fin y => finf_times true y
  | NInf, Fin y => finf_times false y
  | Fin x, PInf => finf_times true x
  | Fin x, NInf => finf_times false x
  | PInf, PInf | NInf, NInf => PInf
  | PInf, NInf | NInf, PInf => NInf
  end.

(** JSON values, as [res.json()] and [json.load] return them. *)
Inductive jval :=
| JNull
| JBool (b : bool)
| JInt (z : Z)
| JFloat (f : pyfloat)
| JStr (s : string)
| JList (l : list jval)
| JObj (o : gmap string jval).

(** Truth value of an object ([if x:], [x or y]). *)
Definition truthy (v : jval) : bool :=
  match v with
  | JNull => false
  | JBool b => b
  | JInt z => negb (z =? 0)%Z
  | JFloat (Fin q) => negb (Qeq_bool q 0)
  | JFloat _ => true
  | JStr s => negb (String.eqb s "")
  | JList l => match l with [] => false | _ => true end
  | JObj o => negb (bool_decide (o = ∅))
  end.

(** [x or d] *)
Definition py_or (v d : jval) : jval := if truthy v then v else d.

(** [d.get(k, default)] on a dict. *)
Definition dict_get (o : gmap string jval) (k : string) (d : jval) : jval :=
  default d (o !! k).

(** [v.get(k, default)]: [AttributeError] when [v] has no [get]. *)
Definition obj_get (v : jval) (k : string) (d : jval) : res jval :=
  match v with
  | JObj o => Ok (dict_get o k d)
  | _ => Raise AttributeError
  end.

(** [d[k]] on a dict. *)
Definition dict_item (o : gmap string jval) (k : string) : res jval :=
  match o !! k with
  | Some v => Ok v
  | None => Raise KeyError
  end.

(** An [int] converts to a float when it rounds to a finite binary64:
    [|z| < 2^1024 - 2^970]. *)
Definition float_int_limit : Z := 2 ^ 1024 - 2 ^ 970.

Definition int_fits_float (z : Z) : bool := (Z.abs z <? float_int_limit)%Z.

Definition float_of_int (z : Z) : res pyfloat :=
  if int_fits_float z then Ok (Fin (inject_Z z)) else Raise OverflowError.

(** Builtins and library functions whose code is not part of the
    repository. *)
Class Builtins := {
  (** [float(s)] for a [str]; [None] stands for [ValueError] *)
  str_to_float : string → option pyfloat;
  (** [int(s)] for a [str]; [None] stands for [ValueError] *)
  str_to_int : string → option Z;
  (** [difflib.get_close_matches(word, possibilities, n=1)] *)
  get_close_matches : string → list string → list string;
}.

(** [float(v)] *)
Definition py_float `{Builtins} (v : jval) : res pyfloat :=
  match v with
  | JNull => Raise TypeError
  | JBool b => Ok (Fin (if b then 1 else 0))
  | JInt z => float_of_int z
  | JFloat f => Ok f
  | JStr s => match str_to_float s with
              | Some f => Ok f
              | None => Raise ValueError
              end
  | JList _ | JObj _ => Raise TypeError
  end.

(** [int(v)]: truncation toward zero for a float. *)
Definition py_int `{Builtins} (v : jval) : res Z :=
  match v with
  | JNull => Raise TypeError
  | JBool b => Ok (if b then 1 else 0)%Z
  | JInt z => Ok z
  | JFloat (Fin q) => Ok (Qnum q ÷ Zpos (Qden q))%Z
  | JFloat NaN => Raise ValueError
  | JFloat _ => Raise OverflowError
  | JStr s => match str_to_int s with
              | Some z => Ok z
              | None => Raise ValueError
              end
  | JList _ | JObj _ => Raise TypeError
  end.

(** The operand of a multiplication by a float: numbers only, a [str] is
    not parsed; an [int] is converted to a float first. *)
Definition as_number (v : jval) : res pyfloat :=
  match v with
  | JBool b => Ok (Fin (if b then 1 else 0))
  | JInt z => float_of_int z
  | JFloat f => Ok f
  | _ => Raise TypeError
  end.

(** Rounding half to even, the rule of Python's [round]. *)
Definition round_half_even (q : Q) : Z :=
  let f := Qfloor q in
  match (q - inject_Z f ?= 1 # 2)%Q with
  | Lt => f
  | Gt => (f + 1)%Z
  | Eq => if Z.even f then f else (f + 1)%Z
  end.

(** [round(q, ndigits)], the result in units of [10^-ndigits]. *)
Definition py_round (q : Q) (ndigits : nat) : Q :=
  let scale := (10 ^ Z.of_nat ndigits)%Z in
  round_half_even (q * inject_Z scale) # Z.to_pos scale.

(* ================================================================== *)
(** * Text *)
(* ================================================================== *)

Module PyStr.

Definition is_upper (c : ascii) : bool :=
  let n := nat_of_ascii c in (65 <=? n) && (n <=? 90).

Definition lower_char (c : ascii) : ascii :=
  if is_upper c then ascii_of_nat (nat_of_ascii c + 32) else c.

(** [s.lower()] *)
Fixpoint lower (s : string) : string :=
  match s with
  | EmptyString => EmptyString
  | String c r => String (lower_char c) (lower r)
  end.

Definition is_space (c : ascii) : bool :=
  let n := nat_of_ascii c in
  ((9 <=? n) && (n <=? 13)) || ((28 <=? n) && (n <=? 32)).

Fixpoint lstrip (s : string) : string :=
  match s with
  | EmptyString => EmptyString
  | String c r => if is_space c then lstrip r else s
  end.

Fixpoint rstrip (s : string) : string :=
  match s with
  | EmptyString => EmptyString
  | String c r =>
      match rstrip r with
      | EmptyString => if is_space c then EmptyString else String c EmptyString
      | r' => String c r'
      end
  end.

(** [s.strip()] *)
Definition strip (s : string) : string := rstrip (lstrip s).

Definition flush (word : string) : list string :=
  match word with EmptyString => [] | _ => [word] end.

(** [split_from word s]: the words of [s], the first one continuing
    [word], the characters read so far. *)
Fixpoint split_from (word : string) (s : string) : list string :=
  match s with
  | EmptyString => flush word
  | String c r =>
      if is_space c then flush word ++ split_from EmptyString r
      else split_from (word +:+ String c EmptyString) r
  end.

(** [s.split()]: the maximal runs of non-whitespace characters. *)
Definition split (s : string) : list string := split_from EmptyString s.

(** [x in xs] for a list of strings *)
Definition mem (x : string) (xs : list string) : bool :=
  existsb (String.eqb x) xs.

End PyStr.

(* ================================================================== *)
(** * sanitize_neuro (lines 11-18) *)
(* ================================================================== *)

Section Sanitize.
Context `{Builtins}.

(** The body of the loop: [try: float(v) except (ValueError, TypeError): 0.5].
    Any other exception leaves the function. *)
Definition float_or_default (v : jval) : res pyfloat :=
  match py_float v with
  | Ok f => Ok f
  | Raise ValueError | Raise TypeError => Ok (Fin (1 # 2))
  | Raise e => Raise e
  end.

Definition sanitize_item (k : string) (v : jval)
    (acc : res (gmap string pyfloat)) : res (gmap string pyfloat) :=
  clean_nt ← acc;
  f ← float_or_default v;
  mret (<[k := f]> clean_nt).

Definition sanitize_neuro (nt_dict : gmap string jval) : res (gmap string pyfloat) :=
  map_fold sanitize_item (Ok ∅) nt_dict.

End Sanitize.

(* ================================================================== *)
(** * Mood score (lines 143-152) *)
(* ================================================================== *)

Definition weights : list (string * Q) :=
  [ ("dopamine", 1 # 4); ("serotonin", 1 # 4); ("oxytocin", 1 # 5);
    ("GABA", 1 # 5); ("cortisol", - (3 # 20)) ]%Q.

(** [nt.get(k, 0) * w] *)
Definition weighted_term (nt : jval) (k : string) (w : Q) : res pyfloat :=
  v ← obj_get nt k (JInt 0);
  x ← as_number v;
  mret (fmul x (Fin w)).

(** [sum(nt.get(k, 0) * w for k, w in weights.items())] *)
Fixpoint weighted_sum_from (acc : pyfloat) (nt : jval) (ws : list (string * Q)) : res pyfloat :=
  match ws with
  | [] => Ok acc
  | (k, w) :: rest =>
      t ← weighted_term nt k w;
      weighted_sum_from (fadd acc t) nt rest
  end.

Definition weighted_sum (nt : jval) : res pyfloat :=
  weighted_sum_from (Fin 0) nt weights.

(** [min(1, s)]: [s] replaces [1] only when [s < 1]. *)
Definition min_1 (s : pyfloat) : pyfloat := if flt s (Fin 1) then s else Fin 1.

(** [max(0, m)]: [m] replaces [0] only when [m > 0]. *)
Definition max_0 (m : pyfloat) : pyfloat := if flt (Fin 0) m then m else Fin 0.

(** [round(x, 1)] on a float; infinities and [nan] are returned as they are. *)
Definition fround (ndigits : nat) (x : pyfloat) : pyfloat :=
  match x with
  | Fin q => Fin (py_round q ndigits)
  | _ => x
  end.

(** [round(max(0, min(1, mood_score)) * 100, 1)] *)
Definition scale_mood (s : pyfloat) : pyfloat :=
  fround 1 (fmul (max_0 (min_1 s)) (Fin 100)).

Definition mood_score (nt : jval) : res pyfloat :=
  s ← weighted_sum nt;
  mret (scale_mood s).

(* ================================================================== *)
(** * show_sentiment_bar (lines 97-108) *)
(* ================================================================== *)

Inductive sentiment := Positive | Negative | Neutral.

(** [score > c] and [score < c] for a float literal [c]; an [int] is compared
    exactly. *)
Definition gt_literal (score : jval) (c : Q) : res bool :=
  match score with
  | JBool b => Ok (Qltb c (if b then 1 else 0))
  | JInt z => Ok (Qltb c (inject_Z z))
  | JFloat f => Ok (flt (Fin c) f)
  | _ => Raise TypeError
  end.

Definition lt_literal (score : jval) (c : Q) : res bool :=
  match score with
  | JBool b => Ok (Qltb (if b then 1 else 0) c)
  | JInt z => Ok (Qltb (inject_Z z) c)
  | JFloat f => Ok (flt f (Fin c))
  | _ => Raise TypeError
  end.

(** [int / int]: the quotient as a float, [OverflowError] when it is too
    large for one. *)
Definition int_true_div (a b : Z) : res pyfloat :=
  let q := (inject_Z a / inject_Z b)%Q in
  if Qltb (Qabs q) (inject_Z float_int_limit) then Ok (Fin q) else Raise OverflowError.

(** [(score + 1) / 2], the argument of [st.progress]. *)
Definition progress_value (score : jval) : res pyfloat :=
  match score with
  | JBool b => int_true_div ((if b then 1 else 0) + 1) 2
  | JInt z => int_true_div (z + 1) 2
  | JFloat f => Ok (fmul (fadd f (Fin 1)) (Fin (1 # 2)))
  | _ => Raise TypeError
  end.

Definition bucket (score : jval) : res sentiment :=
  pos ← gt_literal score (3 # 10);
  if pos : bool then mret Positive
  else
    neg ← lt_literal score (- (3 # 10));
    mret (if neg : bool then Negative else Neutral).

(** The status shown and the value passed to [st.progress]. *)
Definition show_sentiment_bar (score : jval) : res (sentiment * pyfloat) :=
  status ← bucket score;
  p ← progress_value score;
  mret (status, p).

(* ================================================================== *)
(** * find_game_entry (lines 185-194) *)
(* ================================================================== *)

Section GameLookup.
Context `{Builtins}.
(** The list loaded from [game_profiles.json] (lines 21-22). *)
Variable game_profiles : list jval.

(** [name.lower().strip()] *)
Definition normalise (name : jval) : res string :=
  match name with
  | JStr s => Ok (PyStr.strip (PyStr.lower s))
  | _ => Raise AttributeError
  end.

(** [g["name"].lower()] *)
Definition entry_name (g : jval) : res string :=
  match g with
  | JObj o =>
      match o !! "name" with
      | Some (JStr s) => Ok (PyStr.lower s)
      | Some _ => Raise AttributeError
      | None => Raise KeyError
      end
  | _ => Raise TypeError
  end.

(** The first entry of [gs] whose lowered name is [wanted]; the loop of
    lines 188-190 and the generator of line 192. *)
Fixpoint first_named (wanted : string) (gs : list jval) : res (option jval) :=
  match gs with
  | [] => Ok None
  | g :: rest =>
      n ← entry_name g;
      if String.eqb n wanted then Ok (Some g) else first_named wanted rest
  end.

(** [[g["name"].lower() for g in game_profiles]] *)
Fixpoint entry_names (gs : list jval) : res (list string) :=
  match gs with
  | [] => Ok []
  | g :: rest =>
      n ← entry_name g;
      ns ← entry_names rest;
      mret (n :: ns)
  end.

(** The body of the [try]. *)
Definition find_game_entry_body (name : jval) : res (option jval) :=
  game_name ← normalise name;
  exact ← first_named game_name game_profiles;
  match exact with
  | Some g => Ok (Some g)
  | None =>
      names ← entry_names game_profiles;
      match get_close_matches game_name names with
      | m :: _ => first_named m game_profiles
      | [] => Ok None
      end
  end.

(** [except: return None] *)
Definition find_game_entry (name : jval) : option jval :=
  match find_game_entry_body name with
  | Ok r => r
  | Raise _ => None
  end.

End GameLookup.

(* ================================================================== *)
(** * Circadian rhythm and scent guidance (lines 217-231) *)
(* ================================================================== *)

Inductive tip :=
| MorningTip   (** try energizing options like citrus or mint *)
| EveningTip.  (** try calming scents like lavender or vanilla *)

Definition daytime_scents : list string := ["citrus"; "mint"; "bergamot"; "linalool"].
Definition nighttime_scents : list string := ["lavender"; "rose"; "vanilla"; "tonka bean"].

(** Lines 227-231, for the window and the scent of line 219. *)
Definition scent_tip (circadian_window user_scent : string) : option tip :=
  if negb (String.eqb user_scent "") then
    if String.eqb circadian_window "morning" && PyStr.mem user_scent nighttime_scents
    then Some MorningTip
    else if String.eqb circadian_window "evening" && PyStr.mem user_scent daytime_scents
    then Some EveningTip
    else None
  else None.

(** Lines 218-231 on the two texts of the profile: the scent is lowered and
    stripped (line 219), the window is used as it is (line 218). *)
Definition circadian_advisory (circadian_window scent_note : string) : option tip :=
  scent_tip circadian_window (PyStr.strip (PyStr.lower scent_note)).

(** [v.lower().strip()] on a value of the profile. *)
Definition lower_strip (v : jval) : res string :=
  match v with
  | JStr s => Ok (PyStr.strip (PyStr.lower s))
  | _ => Raise AttributeError
  end.

(** A method of [str] called on a value of the profile ([.title()],
    [.lower()]). *)
Definition need_str (v : jval) : res string :=
  match v with
  | JStr s => Ok s
  | _ => Raise AttributeError
  end.

(** Lines 218-231 on the profile. A window that is not a [str] equals
    neither literal; [.title()] is called on it when it is truthy. *)
Definition advisory_of_profile (o : gmap string jval) : res (option tip) :=
  let circadian_window := dict_get o "circadian_window" (JStr "") in
  user_scent ← lower_strip (dict_get o "scent_note" (JStr ""));
  _ ← (if truthy circadian_window then need_str circadian_window else Ok "");
  match circadian_window with
  | JStr w => mret (scent_tip w user_scent)
  | _ => mret None
  end.

(* ================================================================== *)
(** * Mood words and the ledger statistics (lines 334-338, 367-370) *)
(* ================================================================== *)

Definition pos_words : list string := ["happy"; "hopeful"; "excited"; "motivated"].
Definition neg_words : list string := ["anxious"; "sad"; "tired"; "overwhelmed"].

(** [sum(1 for w in ws if w in vocabulary)] *)
Fixpoint count_in (vocabulary : list string) (ws : list string) : Z :=
  match ws with
  | [] => 0
  | w :: rest =>
      ((if PyStr.mem w vocabulary then 1 else 0) + count_in vocabulary rest)%Z
  end.

(** Lines 334-338: the score recorded for the text of the mood field. *)
Definition normalized_mood (mood : string) : Q :=
  let mood_keywords := PyStr.split (PyStr.lower mood) in
  let score := (count_in pos_words mood_keywords - count_in neg_words mood_keywords)%Z in
  py_round ((inject_Z score + 3) / 6)%Q 2.

Definition Qsum (l : list Q) : Q := fold_right Qplus 0%Q l.

(** [np.mean] *)
Definition mean (l : list Q) : Q := (Qsum l / inject_Z (Z.of_nat (length l)))%Q.

(** The square of [np.std]: the mean of the squared deviations. *)
Definition variance (l : list Q) : Q :=
  mean (map (λ x, (x - mean l) ^ 2)%Q l).

(** [round(sqrt(v), 2)] in hundredths, for [v >= 0]: the integer nearest to
    [100 * sqrt v], half to even.  With [y = 40000 v] and [s] the integer
    square root of [y], [100 * sqrt v = sqrt y / 2]; the value is halfway
    between two integers exactly when [y] is the square of the odd [s]. *)
Definition round_sqrt_hundredths (v : Q) : Z :=
  let y := (v * 40000)%Q in
  let s := Z.sqrt (Qfloor y) in
  if Qeq_bool y (inject_Z (s * s)) && Z.odd s
  then (if Z.even ((s - 1) / 2) then (s - 1) / 2 else (s + 1) / 2)%Z
  else ((s + 1) / 2)%Z.

Inductive trend := Improving | Declining.

Record summary := {
  avg_score : Q;
  volatility : Q;
  mood_trend : trend;
}.

(** Lines 367-370, for a ledger that holds at least one score. *)
Definition summarise (first : Q) (others : list Q) : summary :=
  let scores := first :: others in
  {| volatility := round_sqrt_hundredths (variance scores) # 100;
     avg_score := py_round (mean scores) 2;
     mood_trend := if Qltb first (List.last others first) then Improving else Declining |}.

(* ================================================================== *)
(** * The exported table (lines 349-365) *)
(* ================================================================== *)

Module Csv.

Definition comma : ascii := ","%char.
Definition quote : ascii := "034"%char.
Definition LF : ascii := "010"%char.
Definition CR : ascii := "013"%char.

Definition is_newline (c : ascii) : bool := Ascii.eqb c LF || Ascii.eqb c CR.

(** The characters that make the writer quote a cell. *)
Definition special (c : ascii) : bool :=
  Ascii.eqb c comma || Ascii.eqb c quote || is_newline c.

Fixpoint needs_quotes (s : string) : bool :=
  match s with
  | EmptyString => false
  | String c r => special c || needs_quotes r
  end.

Fixpoint double_quotes (s : string) : string :=
  match s with
  | EmptyString => EmptyString
  | String c r =>
      if Ascii.eqb c quote then String quote (String quote (double_quotes r))
      else String c (double_quotes r)
  end.

(** One cell, quoted only when it has to be. *)
Definition cell (s : string) : string :=
  if needs_quotes s
  then String quote (double_quotes s +:+ String quote EmptyString)
  else s.

(** The cells of one row, separated by commas and ended by a line feed. *)
Fixpoint line (cells : list string) : string :=
  match cells with
  | [] => String LF EmptyString
  | [c] => cell c +:+ String LF EmptyString
  | c :: rest => cell c +:+ String comma (line rest)
  end.

Fixpoint text (rows : list (list string)) : string :=
  match rows with
  | [] => EmptyString
  | r :: rest => line r +:+ text rest
  end.

(** Where the reader stands: at the start of a cell, inside a plain cell,
    inside a quoted cell, or just after a quote met inside a quoted cell. *)
Inductive mode := Start | Plain | Quoted | QuoteSeen.

Definition snoc (s : string) (c : ascii) : string := s +:+ String c EmptyString.

(** [read m cur done s]: the rows of [s], for a reader in mode [m] that
    has read the characters [cur] of the current cell and the cells
    [done] of the current row.  Blank lines are skipped; [None] is a
    malformed text. *)
Fixpoint read (m : mode) (cur : string) (done : list string) (s : string)
    : option (list (list string)) :=
  match s with
  | EmptyString =>
      match m with
      | Start => Some (match done with [] => [] | _ => [done ++ [cur]] end)
      | Plain | QuoteSeen => Some [done ++ [cur]]
      | Quoted => None
      end
  | String c r =>
      match m with
      | Start =>
          if Ascii.eqb c quote then read Quoted EmptyString done r
          else if Ascii.eqb c comma then read Start EmptyString (done ++ [EmptyString]) r
          else if is_newline c then
            match done with
            | [] => read Start EmptyString [] r
            | _ => cons (done ++ [EmptyString]) <$> read Start EmptyString [] r
            end
          else read Plain (String c EmptyString) done r
      | Plain =>
          if Ascii.eqb c comma then read Start EmptyString (done ++ [cur]) r
          else if is_newline c then cons (done ++ [cur]) <$> read Start EmptyString [] r
          else read Plain (snoc cur c) done r
      | Quoted =>
          if Ascii.eqb c quote then read QuoteSeen cur done r
          else read Quoted (snoc cur c) done r
      | QuoteSeen =>
          if Ascii.eqb c quote then read Quoted (snoc cur quote) done r
          else if Ascii.eqb c comma then read Start EmptyString (done ++ [cur]) r
          else if is_newline c then cons (done ++ [cur]) <$> read Start EmptyString [] r
          else None
      end
  end.

Definition parse (s : string) : option (list (list string)) :=
  read Start EmptyString [] s.

End Csv.

(** Decimal text of an [int]. *)
Definition int_text (z : Z) : string := NilZero.string_of_int (Z.to_int z).

Definition parse_int (s : string) : option Z :=
  Z.of_int <$> NilZero.int_of_string s.

Definition digit_char (d : Z) : ascii := ascii_of_nat (48 + Z.to_nat d).

(** The decimal digits of [r / d] after the point, for [0 <= r < d]: at
    least one digit, then digits until the remainder is zero, [fuel] digits
    at most. *)
Fixpoint frac_digits (fuel : nat) (r d : Z) : string :=
  match fuel with
  | O => EmptyString
  | S n =>
      let x := (r * 10)%Z in
      String (digit_char (x / d))
        (if (x mod d =? 0)%Z then EmptyString else frac_digits n (x mod d) d)
  end.

(** The text of a finite float: sign, integer part, point, fraction.  It
    is the text Python writes for a value with a short terminating
    expansion ([0.5], [0.67], [1.0], [-0.17]); the shortest-digits rule for
    other values and the exponent notation are not modelled. *)
Definition float_text (q : Q) : string :=
  let n := Z.abs (Qnum q) in
  let d := Zpos (Qden q) in
  (if (Qnum q <? 0)%Z then "-" else "")
    +:+ int_text (n / d) +:+ "." +:+ frac_digits 17 (n mod d) d.

(** [s] cut at its first point. *)
Fixpoint cut_at_point (s : string) : option (string * string) :=
  match s with
  | EmptyString => None
  | String c r =>
      if Ascii.eqb c "."%char then Some (EmptyString, r)
      else '(a, b) ← cut_at_point r; Some (String c a, b)
  end.

(** A decimal numeral [-ddd.ddd] read as a rational. *)
Definition parse_decimal (s : string) : option Q :=
  let '(negative, body) :=
    match s with
    | String "-"%char r => (true, r)
    | _ => (false, s)
    end in
  '(ip, fp) ← cut_at_point body;
  i ← NilZero.uint_of_string ip;
  f ← NilZero.uint_of_string fp;
  let scale := (10 ^ Z.of_nat (String.length fp))%Z in
  let m := (Z.of_uint i * scale + Z.of_uint f)%Z in
  Some ((if negative : bool then - m else m)%Z # Z.to_pos scale).

(** One row of [df_log]. *)
Record log_row := {
  row_timestamp : Z;     (** microseconds since the epoch *)
  row_score : Q;
  row_feedback : Z;
  row_window : jval;
}.

Definition minute : Z := 60000000.

(** [pd.date_range(end=now, periods=n, freq="T")]: [n] instants one minute
    apart, the last one [now]. *)
Definition date_range (now : Z) (n : nat) : list Z :=
  map (λ i, now - minute * (Z.of_nat n - 1 - Z.of_nat i))%Z (seq 0 n).

(** The constructor of [pd.DataFrame] on the four columns: [ValueError]
    when their lengths differ. *)
Fixpoint data_frame (ts : list Z) (scores : list Q) (feedback : list Z)
    (windows : list jval) : res (list log_row) :=
  match ts, scores, feedback, windows with
  | [], [], [], [] => Ok []
  | t :: ts', q :: scores', f :: feedback', w :: windows' =>
      rows ← data_frame ts' scores' feedback' windows';
      mret ({| row_timestamp := t; row_score := q; row_feedback := f; row_window := w |} :: rows)
  | _, _, _, _ => Raise ValueError
  end.

(** Lines 349-354. *)
Definition make_log (now : Z) (emotion_timeline : list Q) (feedback_log : list Z)
    (circadian_window : jval) : res (list log_row) :=
  let n := length emotion_timeline in
  data_frame (date_range now n) emotion_timeline feedback_log (replicate n circadian_window).

(** How pandas writes the cells that are not numbers. *)
Class Rendering := {
  (** the text of a [Timestamp] *)
  timestamp_text : Z → string;
  (** [str(v)] for a value that is neither a [str] nor [None] *)
  object_text : jval → string;
}.

Section ExportTable.
Context `{Rendering}.

Definition window_text (v : jval) : string :=
  match v with
  | JStr s => s
  | JNull => EmptyString
  | _ => object_text v
  end.

Definition header : list string :=
  ["Timestamp"; "Mood Score"; "Feedback"; "Circadian Window"].

Definition row_cells (r : log_row) : list string :=
  [ timestamp_text (row_timestamp r); float_text (row_score r);
    int_text (row_feedback r); window_text (row_window r) ].

(** [df_log.to_csv(buffer, index=False)] *)
Definition to_csv (df_log : list log_row) : string :=
  Csv.text (header :: map row_cells df_log).

End ExportTable.

(** Reading the exported text back: the header, then one row of four cells
    per line, the second a decimal numeral and the third an integer. *)
Definition parse_row (cells : list string) : option (string * Q * Z * string) :=
  match cells with
  | [t; q; f; w] =>
      score ← parse_decimal q;
      rating ← parse_int f;
      Some (t, score, rating, w)
  | _ => None
  end.

Definition read_log (s : string) : option (list (string * Q * Z * string)) :=
  rows ← Csv.parse s;
  match rows with
  | h :: body =>
      if bool_decide (h = ["Timestamp"; "Mood Score"; "Feedback"; "Circadian Window"])
      then mapM parse_row body
      else None
  | [] => None
  end.

(* ================================================================== *)
(** * Session state and the two forms *)
(* ================================================================== *)

(** [st.session_state]: the keys the script writes; [None] is an absent
    key. *)
Record session := {
  ss_profile : option jval;
  ss_twin_data : option jval;
  ss_name : option string;
  ss_circadian_window : option jval;
  ss_circadian_note : option jval;
  ss_emotion_timeline : option (list Q);
  ss_feedback_log : option (list Z);
}.

Definition empty_session : session :=
  {| ss_profile := None; ss_twin_data := None; ss_name := None;
     ss_circadian_window := None; ss_circadian_note := None;
     ss_emotion_timeline := None; ss_feedback_log := None |}.

Definition set_profile (v : jval) (s : session) : session :=
  {| ss_profile := Some v; ss_twin_data := ss_twin_data s; ss_name := ss_name s;
     ss_circadian_window := ss_circadian_window s;
     ss_circadian_note := ss_circadian_note s;
     ss_emotion_timeline := ss_emotion_timeline s;
     ss_feedback_log := ss_feedback_log s |}.

Definition set_twin_data (v : jval) (s : session) : session :=
  {| ss_profile := ss_profile s; ss_twin_data := Some v; ss_name := ss_name s;
     ss_circadian_window := ss_circadian_window s;
     ss_circadian_note := ss_circadian_note s;
     ss_emotion_timeline := ss_emotion_timeline s;
     ss_feedback_log := ss_feedback_log s |}.

Definition set_name (v : string) (s : session) : session :=
  {| ss_profile := ss_profile s; ss_twin_data := ss_twin_data s; ss_name := Some v;
     ss_circadian_window := ss_circadian_window s;
     ss_circadian_note := ss_circadian_note s;
     ss_emotion_timeline := ss_emotion_timeline s;
     ss_feedback_log := ss_feedback_log s |}.

Definition set_circadian_window (v : jval) (s : session) : session :=
  {| ss_profile := ss_profile s; ss_twin_data := ss_twin_data s; ss_name := ss_name s;
     ss_circadian_window := Some v;
     ss_circadian_note := ss_circadian_note s;
     ss_emotion_timeline := ss_emotion_timeline s;
     ss_feedback_log := ss_feedback_log s |}.

Definition set_circadian_note (v : jval) (s : session) : session :=
  {| ss_profile := ss_profile s; ss_twin_data := ss_twin_data s; ss_name := ss_name s;
     ss_circadian_window := ss_circadian_window s;
     ss_circadian_note := Some v;
     ss_emotion_timeline := ss_emotion_timeline s;
     ss_feedback_log := ss_feedback_log s |}.

Definition set_emotion_timeline (v : list Q) (s : session) : session :=
  {| ss_profile := ss_profile s; ss_twin_data := ss_twin_data s; ss_name := ss_name s;
     ss_circadian_window := ss_circadian_window s;
     ss_circadian_note := ss_circadian_note s;
     ss_emotion_timeline := Some v;
     ss_feedback_log := ss_feedback_log s |}.

Definition set_feedback_log (v : list Z) (s : session) : session :=
  {| ss_profile := ss_profile s; ss_twin_data := ss_twin_data s; ss_name := ss_name s;
     ss_circadian_window := ss_circadian_window s;
     ss_circadian_note := ss_circadian_note s;
     ss_emotion_timeline := ss_emotion_timeline s;
     ss_feedback_log := Some v |}.

(** A block of the script: it may write the session state and may raise;
    what it wrote before raising stays written. *)
Definition run (A : Type) : Type := session → res A * session.

#[global] Instance run_ret : MRet run := λ A a s, (Ok a, s).
#[global] Instance run_bind : MBind run := λ A B f m s,
  match m s with
  | (Ok a, s') => f a s'
  | (Raise e, s') => (Raise e, s')
  end.

Definition lift {A} (r : res A) : run A := λ s, (r, s).
Definition write (f : session → session) : run unit := λ s, (Ok (), f s).
Definition read_state : run session := λ s, (Ok s, s).

(** What the backend answered: no answer ([requests.post] raised), or a
    status code and the body, [None] when the body is not JSON. *)
Inductive http_reply :=
| NoReply
| Reply (status_code : Z) (body : option jval).

Definition post (r : http_reply) : res (Z * option jval) :=
  match r with
  | NoReply => Raise RequestException
  | Reply c b => Ok (c, b)
  end.

(** [res.json()] *)
Definition json (body : option jval) : res jval :=
  match body with
  | Some v => Ok v
  | None => Raise JSONDecodeError
  end.

(** [v == "..."] for a string literal. *)
Definition is_str (v : jval) (s : string) : bool :=
  match v with
  | JStr t => String.eqb t s
  | _ => false
  end.

(** [k in o] *)
Definition has_key (o : gmap string jval) (k : string) : bool :=
  bool_decide (is_Some (o !! k)).

(** [for x in v] and [len(v)] need a sequence or a mapping. *)
Definition need_sized (v : jval) : res unit :=
  match v with
  | JStr _ | JList _ | JObj _ => Ok ()
  | _ => Raise TypeError
  end.

(** [if v: for x in v: ...] *)
Definition each_if_any (v : jval) : res unit :=
  if truthy v then need_sized v else Ok ().

(** [v in region_explanations]: the key of a dict lookup must be hashable. *)
Definition need_hashable (v : jval) : res unit :=
  match v with
  | JList _ | JObj _ => Raise TypeError
  | _ => Ok ()
  end.

Section Forms.
Context `{Builtins} `{Rendering}.
Variable game_profiles : list jval.

(** ** Tab 1: the profile form (lines 59-280) *)

(** Lines 233-255: the childhood memory scent profile. *)
Definition memory_block (o : gmap string jval) : res unit :=
  match o !! "memory_scent_profile" with
  | None => Ok ()
  | Some (JObj memory) =>
      _ ← each_if_any (dict_get memory "scent_notes" (JList []));
      _ ← match dict_get memory "neuro_map" (JObj ∅) with
          | JObj nt_map =>
              map_fold (λ _ notes acc, _ ← acc; need_sized notes) (Ok ()) nt_map
          | _ => Raise AttributeError
          end;
      each_if_any (dict_get memory "linked_regions" (JList []))
  | Some _ => Raise AttributeError
  end.

(** What the page shows of an accepted profile, as far as it is derived
    here. *)
Record view := {
  v_mood_score : pyfloat;
  v_matched_game : option jval;
  v_tip : option tip;
}.

(** Lines 121-272: everything between the two groups of writes to the
    session state. *)
Definition render (o : gmap string jval) : res view :=
  (* 128-137 *)
  _ ← (if has_key o "circadian_window" || has_key o "circadian_note" then
         _ ← need_str (dict_get o "circadian_window" (JStr "Not detected"));
         each_if_any (dict_get o "circadian_note" (JList []))
       else Ok ());
  (* 140 *)
  _ ← dict_item o "brain_regions";
  (* 150-152 *)
  nt ← dict_item o "neurotransmitters";
  mood ← mood_score nt;
  (* 171 *)
  _ ← need_str (dict_get o "circadian_window" (JStr ""));
  (* 176 *)
  _ ← dict_item o "subvectors";
  (* 180-182 *)
  xbox_game ← dict_item o "xbox_game";
  _ ← dict_item o "game_mode";
  _ ← dict_item o "duration_minutes";
  _ ← dict_item o "switch_time";
  (* 196-207 *)
  let matched_game := find_game_entry game_profiles xbox_game in
  _ ← match matched_game with
      | Some g =>
          if truthy g then lower_strip (dict_get o "scent_note" (JStr ""))
          else Ok EmptyString
      | None => Ok EmptyString
      end;
  (* 213, 216 *)
  _ ← dict_item o "spotify_playlist";
  _ ← dict_item o "scent_reinforcement";
  (* 218-231 *)
  advice ← advisory_of_profile o;
  (* 233-255 *)
  _ ← memory_block o;
  (* 269-270 *)
  _ ← need_hashable (dict_get o "lowest_region" (JStr ""));
  mret {| v_mood_score := mood; v_matched_game := matched_game; v_tip := advice |}.

Inductive gen_result :=
| ApiError                    (** lines 82-85, [return] *)
| ServerError                 (** lines 88-90, [return] *)
| MissingNeurotransmitters    (** lines 91-94, [return] *)
| RequestFailed (e : exn)     (** lines 279-280 *)
| Generated (goals stressors : sentiment * pyfloat) (v : view).

(** The body of the [try] of line 80. *)
Definition generate_block (name : string) (reply : http_reply) : run gen_result :=
  '(status_code, body) ← lift (post reply);
  if negb (status_code =? 200)%Z then mret ApiError else
  profile ← lift (json body);
  status ← lift (obj_get profile "status" JNull);
  if is_str status "error" then mret ServerError else
  match profile with
  | JObj o =>
      if negb (has_key o "neurotransmitters") then mret MissingNeurotransmitters else
      (* 96 *)
      _ ← write (set_profile profile);
      (* 109-114 *)
      goals ← lift (show_sentiment_bar (dict_get o "goals_sentiment" (JInt 0)));
      stressors ← lift (show_sentiment_bar (dict_get o "stressors_sentiment" (JInt 0)));
      (* 116-119 *)
      _ ← write (set_twin_data profile);
      _ ← write (set_name name);
      _ ← write (set_circadian_window (dict_get o "circadian_window" (JStr "")));
      _ ← write (set_circadian_note (dict_get o "circadian_note" (JList [])));
      (* 121-272 *)
      v ← lift (render o);
      (* 274-277 *)
      _ ← write (set_profile profile);
      _ ← write (set_twin_data profile);
      _ ← write (set_name name);
      _ ← write (set_circadian_window (dict_get o "circadian_window" (JStr "")));
      mret (Generated goals stressors v)
  | _ => lift (Raise AttributeError)
  end.

(** The [try ... except Exception] of lines 80-280. *)
Definition generate_submit (name : string) (reply : http_reply)
    (s : session) : gen_result * session :=
  match generate_block name reply s with
  | (Ok r, s') => (r, s')
  | (Raise e, s') => (RequestFailed e, s')
  end.

(** The profile a reply carries when it passes the three checks of lines
    82-94. *)
Definition accepted (reply : http_reply) : option (gmap string jval) :=
  match reply with
  | Reply status_code (Some (JObj o)) =>
      if negb (status_code =? 200)%Z then None
      else if is_str (dict_get o "status" JNull) "error" then None
      else if has_key o "neurotransmitters" then Some o
      else None
  | _ => None
  end.

(** ** Tab 2: the reflection form (lines 290-384) *)

Record payload := {
  p_name : string;
  p_current_emotion : string;
  p_recent_events : string;
  p_goals : string;
  p_neurotransmitters : gmap string pyfloat;
  p_xbox_game : jval;
  p_game_mode : jval;
  p_duration_minutes : Z;
  p_switch_time : jval;
}.

(** [s or d] on texts *)
Definition str_or (s d : string) : string :=
  if String.eqb s EmptyString then d else s.

(** Lines 308-324. *)
Definition build_payload (name : option string) (mood events goals : string)
    (profile : jval) : res payload :=
  match profile with
  | JObj o =>
      match dict_get o "neurotransmitters" (JObj ∅) with
      | JObj nt =>
          clean ← sanitize_neuro
            (<["name_email_aligned" := dict_get o "name_email_aligned" (JBool false)]>
              (<["email_style_score" := dict_get o "email_style_score" (JInt 0)]>
                (<["work_env" := dict_get o "work_env" (JStr "general_consumer")]> nt)));
          duration ← py_int (py_or (dict_get o "duration_minutes" JNull) (JInt 20));
          mret {| p_name := str_or (default "Anonymous" name) "Anonymous";
                  p_current_emotion := str_or mood "Neutral";
                  p_recent_events := str_or events "None";
                  p_goals := str_or goals "None";
                  p_neurotransmitters := clean;
                  p_xbox_game := py_or (dict_get o "xbox_game" JNull) (JStr "Unknown");
                  p_game_mode := py_or (dict_get o "game_mode" JNull) (JStr "Solo");
                  p_duration_minutes := duration;
                  p_switch_time := py_or (dict_get o "switch_time" JNull) (JStr "After 20 mins") |}
      | _ => Raise TypeError
      end
  | _ => Raise AttributeError
  end.

(** [st.session_state[key]] for one of the two lists *)
Definition need_key {A} (v : option A) : res A :=
  match v with
  | Some a => Ok a
  | None => Raise KeyError
  end.

(** [scores[-1]], [scores[0]] need a score. *)
Definition summary_of (scores : list Q) : res summary :=
  match scores with
  | first :: others => Ok (summarise first others)
  | [] => Raise IndexError
  end.

Inductive reflect_result :=
| NoProfile                    (** line 298: the form is not shown *)
| Crashed (e : exn)            (** raised by lines 307-324, outside the [try] *)
| ReflectionFailed (e : exn)   (** lines 383-384 *)
| JournalFailed                (** lines 379-381 *)
| Reflected (normalized : Q) (feedback : Z) (csv : string) (stats : summary).

(** The body of the [try] of line 327.  [feedback] is the value of the
    slider of line 345 and [now] the instant of line 350. *)
Definition reflect_block (mood : string) (feedback now : Z)
    (reply : http_reply) : run reflect_result :=
  '(status_code, body) ← lift (post reply);
  if (status_code =? 200)%Z then
    j ← lift (json body);
    _ ← lift (obj_get j "journal_entry" (JStr ""));
    (* 334-339 *)
    let normalized := normalized_mood mood in
    s ← read_state;
    timeline ← lift (need_key (ss_emotion_timeline s));
    _ ← write (set_emotion_timeline (timeline ++ [normalized]));
    (* 345-346 *)
    log ← lift (need_key (ss_feedback_log s));
    _ ← write (set_feedback_log (log ++ [feedback]));
    (* 349-365 *)
    df_log ← lift (make_log now (timeline ++ [normalized]) (log ++ [feedback])
                     (default (JStr "") (ss_circadian_window s)));
    (* 367-370 *)
    stats ← lift (summary_of (timeline ++ [normalized]));
    mret (Reflected normalized feedback (to_csv df_log) stats)
  else
    _ ← lift (json body);
    mret JournalFailed.

(** Lines 297-384 for a submitted reflection form; [backend] answers the
    request that carries the payload. *)
Definition reflect_submit (mood events goals : string) (feedback now : Z)
    (backend : payload → http_reply) (s : session) : reflect_result * session :=
  match ss_profile s with
  | None => (NoProfile, s)
  | Some profile =>
      match build_payload (ss_name s) mood events goals profile with
      | Raise e => (Crashed e, s)
      | Ok p =>
          match reflect_block mood feedback now (backend p) s with
          | (Ok r, s') => (r, s')
          | (Raise e, s') => (ReflectionFailed e, s')
          end
      end
  end.

(** ** One run of the script *)

Inductive event :=
| PageLoad
| SubmitProfile (name : string) (reply : http_reply)
| SubmitReflection (mood events goals : string) (feedback now : Z)
    (backend : payload → http_reply).

Inductive outcome :=
| Idle
| ProfileRun (r : gen_result)
| ReflectionRun (r : reflect_result).

(** Lines 290-293. *)
Definition init_ledger (s : session) : session :=
  let s1 := match ss_emotion_timeline s with
            | None => set_emotion_timeline [] s
            | Some _ => s
            end in
  match ss_feedback_log s1 with
  | None => set_feedback_log [] s1
  | Some _ => s1
  end.

(** [main()]: tab 1, then tab 2 unless tab 1 returned. *)
Definition main (ev : event) (s : session) : outcome * session :=
  match ev with
  | PageLoad => (Idle, init_ledger s)
  | SubmitProfile name reply =>
      let '(r, s1) := generate_submit name reply s in
      match r with
      | ApiError | ServerError | MissingNeurotransmitters => (ProfileRun r, s1)
      | _ => (ProfileRun r, init_ledger s1)
      end
  | SubmitReflection mood events goals feedback now backend =>
      let '(r, s1) := reflect_submit mood events goals feedback now backend (init_ledger s) in
      (ReflectionRun r, s1)
  end.

(** A session: the runs of the script from the empty state, with what each
    run produced. *)
Fixpoint session_run (evs : list event) (s : session) : list outcome * session :=
  match evs with
  | [] => ([], s)
  | ev :: rest =>
      let '(o, s1) := main ev s in
      let '(os, s2) := session_run rest s1 in
      (o :: os, s2)
  end.

Definition is_reflected (o : outcome) : bool :=
  match o with
  | ReflectionRun (Reflected _ _ _ _) => true
  | _ => false
  end.

End Forms.

(* ================================================================== *)
(** * Instances of the library functions, for evaluation *)
(* ================================================================== *)

(** [difflib.get_close_matches] with [n=1] and the default cutoff 0.6, for
    words shorter than 200 characters (the length from which difflib sets
    popular characters aside). *)
Module Difflib.

Fixpoint common_prefix (a b : list ascii) : nat :=
  match a, b with
  | x :: a', y :: b' => if Ascii.eqb x y then S (common_prefix a' b') else O
  | _, _ => O
  end.

(** The best block that starts at [i] in [a], against every start [j] of
    [b]: a later start replaces the best one only when it is longer. *)
Fixpoint scan_b (i : nat) (ai : list ascii) (j : nat) (bj : list ascii)
    (best : nat * nat * nat) : nat * nat * nat :=
  let k := common_prefix ai bj in
  let best' := if (snd best <? k)%nat then (i, j, k) else best in
  match bj with
  | [] => best'
  | _ :: bj' => scan_b i ai (S j) bj' best'
  end.

Fixpoint scan_a (i : nat) (ai : list ascii) (b : list ascii)
    (best : nat * nat * nat) : nat * nat * nat :=
  let best' := scan_b i ai 0 b best in
  match ai with
  | [] => best'
  | _ :: ai' => scan_a (S i) ai' b best'
  end.

(** [find_longest_match]: the longest common block, the earliest in [a]
    and then the earliest in [b] among the longest. *)
Definition find_longest_match (a b : list ascii) : nat * nat * nat :=
  scan_a 0 a b (0, 0, 0)%nat.

(** The total size of the matching blocks: the longest block, then the
    same to its left and to its right. *)
Fixpoint matches (fuel : nat) (a b : list ascii) : nat :=
  match fuel with
  | O => O
  | S n =>
      let '(i, j, k) := find_longest_match a b in
      match k with
      | O => O
      | _ => (matches n (take i a) (take j b) + k
              + matches n (drop (i + k) a) (drop (j + k) b))%nat
      end
  end.

(** [ratio()] as [2 M / T], [1] when both texts are empty. *)
Definition ratio (a b : string) : Q :=
  let la := list_ascii_of_string a in
  let lb := list_ascii_of_string b in
  let t := (length la + length lb)%nat in
  match t with
  | O => 1
  | _ => Z.of_nat (2 * matches (S (length la)) la lb) # Pos.of_nat t
  end.

(** [max] over the pairs [(ratio, x)]: the first of the largest. *)
Definition better (p q : Q * string) : bool :=
  Qltb (fst q) (fst p)
  || (Qeq_bool (fst p) (fst q) && String.ltb (snd q) (snd p)).

Fixpoint largest (best : Q * string) (rest : list (Q * string)) : Q * string :=
  match rest with
  | [] => best
  | p :: rest' => largest (if better p best then p else best) rest'
  end.

Definition get_close_matches (word : string) (possibilities : list string)
    : list string :=
  let scored := map (λ x, (ratio x word, x)) possibilities in
  match List.filter (λ p, Qle_bool (3 # 5) (fst p)) scored with
  | [] => []
  | p :: rest => [snd (largest p rest)]
  end.

End Difflib.

(** [float(s)] on a plain decimal numeral [-ddd.ddd], [ddd], or one of the
    names of infinity and not-a-number, surrounded by optional whitespace;
    any other text reads as [ValueError] here. *)
Definition float_of_text (s : string) : option pyfloat :=
  let t := PyStr.lower (PyStr.strip s) in
  if PyStr.mem t ["inf"; "+inf"; "infinity"; "+infinity"] then Some PInf
  else if PyStr.mem t ["-inf"; "-infinity"] then Some NInf
  else if PyStr.mem t ["nan"; "+nan"; "-nan"] then Some NaN
  else match parse_decimal t with
       | Some q => Some (Fin q)
       | None => (λ z, Fin (inject_Z z)) <$> parse_int t
       end.

Definition reference_builtins : Builtins :=
  {| str_to_float := float_of_text;
     str_to_int := λ s, parse_int (PyStr.strip s);
     get_close_matches := Difflib.get_close_matches |}.

(** Timestamps written as their number of microseconds, any other object
    as a fixed placeholder. *)
Definition plain_rendering : Rendering :=
  {| timestamp_text := int_text;
     object_text := λ _, "object" |}.

(* ================================================================== *)
(** * The terms of the specification *)
(* ================================================================== *)




Definition clamp01 (x : Q) : Q := Qmax 0 (Qmin 1 x).


(** What [sanitize_neuro] stores for a value: its conversion, or the
    default. *)
Definition converted `{Builtins} (v : jval) : pyfloat :=
  match py_float v with
  | Ok f => f
  | Raise _ => Fin (1 # 2)
  end.

(** Every [int] of the mapping fits a float. *)
Definition ints_fit (m : gmap string jval) : Prop :=
  ∀ k z, m !! k = Some (JInt z) → int_fits_float z = true.

(** The number of words of [ws] that occur in [vocabulary], a word that
    occurs several times counted each time. *)
Definition occurrences (vocabulary ws : list string) : Z :=
  Z.of_nat (length (filter (λ w, w ∈ vocabulary) ws)).


(** The lowered name of a well-formed entry of the static table. *)
Definition lowered_name (g : jval) : option string :=
  match g with
  | JObj o =>
      match o !! "name" with
      | Some (JStr s) => Some (PyStr.lower s)
      | _ => None
      end
  | _ => None
  end.


(** [g] is the first entry of [gs] whose lowered name is [w]. *)
Definition is_first_named (w : string) (gs : list jval) (g : jval) : Prop :=
  ∃ i, gs !! i = Some g
       ∧ lowered_name g = Some w
       ∧ ∀ j g', (j < i)%nat → gs !! j = Some g' → lowered_name g' ≠ Some w.


(** A small table for evaluation. *)
Definition sample_games : list jval :=
  [ JObj {[ "name" := JStr "Halo Infinite" ]};
    JObj {[ "name" := JStr "Forza Horizon" ]};
    JObj {[ "name" := JStr "Minecraft" ]} ].

(** The mapping of the specification's worked example. *)
Definition sample_levels : gmap string jval :=
  <["dopamine" := JFloat (Fin (8 # 10))]>
    (<["serotonin" := JFloat (Fin (8 # 10))]>
      (<["oxytocin" := JFloat (Fin (8 # 10))]>
        (<["GABA" := JFloat (Fin (8 # 10))]>
          (<["cortisol" := JFloat (Fin (2 # 10))]> ∅)))).

(** The session state after the writes of lines 96 and 116-119. *)
Definition stored (name : string) (o : gmap string jval) (s : session) : session :=
  set_circadian_note (dict_get o "circadian_note" (JList []))
    (set_circadian_window (dict_get o "circadian_window" (JStr ""))
      (set_name name (set_twin_data (JObj o) (set_profile (JObj o) s)))).

(** The same after the writes of lines 274-277. *)
Definition stored_again (name : string) (o : gmap string jval) (s : session) : session :=
  set_circadian_window (dict_get o "circadian_window" (JStr ""))
    (set_name name (set_twin_data (JObj o) (set_profile (JObj o) (stored name o s)))).

Definition is_generated (r : gen_result) : bool :=
  match r with Generated _ _ _ => true | _ => false end.

(** The two sequences of the ledger; a list the script has not created
    yet holds nothing. *)
Definition ledger_scores (s : session) : list Q := default [] (ss_emotion_timeline s).
Definition ledger_ratings (s : session) : list Z := default [] (ss_feedback_log s).

(** What a run of the script appends to the ledger. *)
Definition recorded (ev : event) (o : outcome) : list (Q * Z) :=
  match ev, o with
  | SubmitReflection mood _ _ feedback _ _, ReflectionRun (Reflected _ _ _ _) =>
      [(normalized_mood mood, feedback)]
  | _, _ => []
  end.

Fixpoint recorded_all (evs : list event) (outs : list outcome) : list (Q * Z) :=
  match evs, outs with
  | ev :: evs', o :: outs' => recorded ev o ++ recorded_all evs' outs'
  | _, _ => []
  end.

(** The slider of line 345 returns a value between its bounds. *)
Definition slider_in_range (ev : event) : Prop :=
  match ev with
  | SubmitReflection _ _ _ feedback _ _ => (0 <= feedback <= 5)%Z
  | _ => True
  end.

(** Positive words minus negative words of a mood text. *)
Definition mood_balance (mood : string) : Z :=
  (occurrences pos_words (PyStr.split (PyStr.lower mood))
   - occurrences neg_words (PyStr.split (PyStr.lower mood)))%Z.

(** A complete profile, as the backend returns one. *)
Definition sample_profile : gmap string jval :=
  <["neurotransmitters" := JObj sample_levels]>
    (<["brain_regions" := JObj {[ "amygdala" := JFloat (Fin (4 # 10)) ]}]>
      (<["subvectors" := JObj ∅]>
        (<["xbox_game" := JStr "Halo Infinite"]>
          (<["game_mode" := JStr "Solo"]>
            (<["duration_minutes" := JInt 20]>
              (<["switch_time" := JStr "After 20 mins"]>
                (<["spotify_playlist" := JStr "Deep Focus"]>
                  (<["scent_reinforcement" := JStr "mint"]>
                    (<["circadian_window" := JStr "morning"]>
                      (<["scent_note" := JStr "Lavender"]> ∅)))))))))).

(** A reply that is accepted and then fails: it has no [brain_regions]. *)
Definition partial_profile : gmap string jval :=
  {[ "neurotransmitters" := JObj ∅ ]}.

(** The journal backend answering every payload with an entry. *)
Definition journal_ok (p : payload) : http_reply :=
  Reply 200 (Some (JObj {[ "journal_entry" := JStr "Today was a good day." ]})).

Definition sample_session (mood : string) : list event :=
  [ PageLoad;
    SubmitProfile "Ann" (Reply 200 (Some (JObj sample_profile)));
    SubmitReflection "sad" "" "" 3 0 (λ _, Reply 500 None);
    SubmitReflection mood "" "" 3 0 journal_ok ].

(** A value with two decimals, as [round(x, 2)] returns it. *)
Definition two_decimals (q : Q) : Prop := Qden q = 100%positive.




(* ================================================================== *)
(** * The request of the profile form (lines 59-77) *)
(* ================================================================== *)

(** [c in s] for a one-character text [c] *)
Fixpoint has_char (c : ascii) (s : string) : bool :=
  match s with
  | EmptyString => false
  | String x r => Ascii.eqb x c || has_char c r
  end.

(** [s] cut at its first [sep]; [None] when it has none. *)
Fixpoint cut_at (sep : ascii) (s : string) : option (string * string) :=
  match s with
  | EmptyString => None
  | String c r =>
      if Ascii.eqb c sep then Some (EmptyString, r)
      else '(a, b) ← cut_at sep r; Some (String c a, b)
  end.

(** [s.split(sep, 1)] *)
Definition split_1 (sep : ascii) (s : string) : list string :=
  match cut_at sep s with
  | Some (a, b) => [a; b]
  | None => [s]
  end.

(** [parts[i]] *)
Definition list_item {A} (parts : list A) (i : nat) : res A :=
  match parts !! i with
  | Some a => Ok a
  | None => Raise IndexError
  end.

(** Lines 60-65: the job title and the company, [None] when the field has
    no comma. *)
Definition job_fields (job_info : string) : res (string * option string) :=
  if has_char "," job_info then
    let parts := split_1 "," job_info in
    a ← list_item parts 0;
    b ← list_item parts 1;
    mret (PyStr.strip a, Some (PyStr.strip b))
  else mret (PyStr.strip job_info, None).

(** The options of the select box of lines 50-54. *)
Definition sex_options : list string := ["Prefer not to say"; "Female"; "Male"].

(** Line 76. *)
Definition assigned_sex_value (assigned_sex : string) : string :=
  if negb (String.eqb assigned_sex "Prefer not to say")
  then PyStr.lower assigned_sex
  else "unspecified".

(** The body of the request of line 81. *)
Record profile_request := {
  d_name : string;
  d_email : string;
  d_job_title : string;
  d_company : option string;
  d_career_goals : string;
  d_productivity_limiters : string;
  d_scent_note : string;
  d_childhood_scent : string;
  d_assigned_sex : string;
}.

(** Lines 60-77. *)
Definition form_data (name email job_info goals stressors assigned_sex
    favorite_scent childhood_scent : string) : res profile_request :=
  '(job_title, company) ← job_fields job_info;
  mret {| d_name := name;
          d_email := email;
          d_job_title := job_title;
          d_company := company;
          d_career_goals := goals;
          d_productivity_limiters := stressors;
          d_scent_note := favorite_scent;
          d_childhood_scent := childhood_scent;
          d_assigned_sex := assigned_sex_value assigned_sex |}.

(* ================================================================== *)
(** * The low-mood warning (lines 171-173) *)
(* ================================================================== *)




(** The band of the gauge a value falls in (lines 163-167); a value on a
    border belongs to both bands and is drawn in the later one. *)
Inductive band := LightCoral | Khaki | LightGreen.

Definition gauge_steps : list (Q * Q * band) :=
  [ (0, 40, LightCoral); (40, 70, Khaki); (70, 100, LightGreen) ]%Q.

Definition in_step (q : Q) (step : Q * Q * band) : bool :=
  Qle_bool step.1.1 q && Qle_bool q step.1.2.

(* ================================================================== *)
(** * Numeric levels *)
(* ================================================================== *)

(** A value that arithmetic accepts: a [bool], an [int] that fits a float,
    a [float]. *)
Definition is_number (v : jval) : bool := is_ok (as_number v).

(** The keys of the weights whose value in [o] is not a number. *)
Definition levels_ok (o : gmap string jval) : bool :=
  forallb (λ kw : string * Q,
             match o !! kw.1 with
             | Some v => is_number v
             | None => true
             end) weights.

(* ================================================================== *)
(** * The neurotransmitter associations of a scent memory (lines 241-245) *)
(* ================================================================== *)

Definition is_lower (c : ascii) : bool :=
  let n := nat_of_ascii c in (97 <=? n) && (n <=? 122).

Definition upper_char (c : ascii) : ascii :=
  if is_lower c then ascii_of_nat (nat_of_ascii c - 32) else c.

(** [s.capitalize()]: the first character in upper case, the others in
    lower case. *)
Definition capitalize (s : string) : string :=
  match s with
  | EmptyString => EmptyString
  | String c r => String (upper_char c) (PyStr.lower r)
  end.

(** [len(v)] *)
Definition py_len (v : jval) : res nat :=
  match v with
  | JStr s => Ok (String.length s)
  | JList l => Ok (length l)
  | JObj o => Ok (size o)
  | _ => Raise TypeError
  end.

(** The loop of lines 243-244 over the items of [neuro_map], in the order
    the mapping yields them, from the counts [nt_freq] stored so far. *)
Fixpoint count_notes (nt_freq : gmap string nat) (items : list (string * jval))
    : res (gmap string nat) :=
  match items with
  | [] => Ok nt_freq
  | (nt, notes) :: rest =>
      n ← py_len notes;
      count_notes (<[capitalize nt := n]> nt_freq) rest
  end.

(** Lines 242-244. *)
Definition nt_freq (items : list (string * jval)) : res (gmap string nat) :=
  count_notes ∅ items.

(** The last item of [items] whose key capitalises to [label]. *)
Definition last_labelled (label : string) (items : list (string * jval))
    : option (string * jval) :=
  last (filter (λ it, capitalize it.1 = label) items).

(* ================================================================== *)
(** * Well-formed profiles and sample data *)
(* ================================================================== *)

(** The three fields of the profile that line 313 sends among the
    neurotransmitter levels. *)
Definition profile_level_keys : gset string :=
  {[ "work_env"; "email_style_score"; "name_email_aligned" ]}.

(** The payload built from a profile without any of the optional fields
    and from empty form fields. *)
Definition default_payload : payload :=
  {| p_name := "Anonymous";
     p_current_emotion := "Neutral";
     p_recent_events := "None";
     p_goals := "None";
     p_neurotransmitters :=
       {[ "work_env" := Fin (1 # 2);
          "email_style_score" := Fin 0;
          "name_email_aligned" := Fin 0 ]};
     p_xbox_game := JStr "Unknown";
     p_game_mode := JStr "Solo";
     p_duration_minutes := 20;
     p_switch_time := JStr "After 20 mins" |}.

(** A profile with a level that no float can hold. *)
Definition overflow_profile : gmap string jval :=
  <["neurotransmitters" := JObj {[ "histamine" := JInt (2 ^ 1024) ]}]> sample_profile.

(** The keys that lines 140-216 read with [profile[...]], besides
    [neurotransmitters]. *)
Definition required_keys : list string :=
  [ "brain_regions"; "subvectors"; "xbox_game"; "game_mode"; "duration_minutes";
    "switch_time"; "spotify_playlist"; "scent_reinforcement" ].







(* ================================================================== *)
(** * Properties *)
(* ================================================================== *)

Lemma Qltb_lt (x y : Q) : Qltb x y = true ↔ (x < y)%Q.
Proof.
  unfold Qltb. rewrite negb_true_iff. split.
  - intros Hb. apply Qnot_le_lt. intros Hle. apply Qle_bool_iff in Hle. congruence.
  - intros Hlt. destruct (Qle_bool y x) eqn:E; [|done].
    apply Qle_bool_iff in E. lra.
Qed.

Lemma Qltb_ge (x y : Q) : Qltb x y = false ↔ (y <= x)%Q.
Proof.
  unfold Qltb. rewrite negb_false_iff. apply Qle_bool_iff.
Qed.

Lemma Qltb_cases (x y : Q) :
  (Qltb x y = true ∧ (x < y)%Q) ∨ (Qltb x y = false ∧ (y <= x)%Q).
Proof.
  destruct (Qltb x y) eqn:E.
  - left. split; [done|]. by apply Qltb_lt.
  - right. split; [done|]. by apply Qltb_ge.
Qed.




#[global] Instance round_half_even_wd : Proper (Qeq ==> eq) round_half_even.
Proof.
  intros x y Hxy. unfold round_half_even.
  rewrite (Qfloor_comp x y Hxy).
  assert ((x - inject_Z (Qfloor y) ?= 1 # 2) = (y - inject_Z (Qfloor y) ?= 1 # 2))%Q as ->; [|done].
  apply Qcompare_comp; [|reflexivity]. by rewrite Hxy.
Qed.

#[global] Instance py_round_wd : Proper (Qeq ==> eq ==> eq) py_round.
Proof.
  intros x y Hxy n ? <-. unfold py_round.
  assert (round_half_even (x * inject_Z (10 ^ Z.of_nat n)) =
          round_half_even (y * inject_Z (10 ^ Z.of_nat n))) as ->; [|done].
  apply round_half_even_wd. by rewrite Hxy.
Qed.


Lemma clamp_value (s : Q) :
  ∃ c, max_0 (min_1 (Fin s)) = Fin c ∧ (c == clamp01 s)%Q.
Proof.
  unfold min_1, max_0, clamp01. simpl.
  destruct (Qltb_cases s 1) as [[-> H1]|[-> H1]]; simpl.
  - destruct (Qltb_cases 0 s) as [[-> H0]|[-> H0]]; eexists; (split; [reflexivity|]).
    + rewrite (Q.min_r 1 s) by lra. rewrite Q.max_r by lra. reflexivity.
    + rewrite (Q.min_r 1 s) by lra. rewrite Q.max_l by lra. reflexivity.
  - exists 1%Q. split; [done|].
    rewrite (Q.min_l 1 s) by lra. rewrite Q.max_r by lra. reflexivity.
Qed.


Section SanitizeFacts.
Context `{Builtins}.

Lemma float_or_default_converted (v : jval) :
  (∀ z, v = JInt z → int_fits_float z = true) →
  float_or_default v = Ok (converted v).
Proof.
  intros Hfit. unfold float_or_default, converted.
  destruct v as [|b|z|f|s| |]; simpl; try done.
  - unfold float_of_int. by rewrite (Hfit z eq_refl).
  - by destruct (str_to_float s).
Qed.

Lemma sanitize_neuro_fmap (m : gmap string jval) :
  ints_fit m → sanitize_neuro m = Ok (converted <$> m).
Proof.
  unfold sanitize_neuro.
  apply (map_fold_weak_ind
           (λ r m, ints_fit m → r = Ok (converted <$> m))).
  - intros _. by rewrite fmap_empty.
  - intros k v m' r Hk IH Hfit.
    rewrite IH.
    + unfold sanitize_item. simpl.
      rewrite float_or_default_converted.
      * simpl. by rewrite fmap_insert.
      * intros z ->. apply (Hfit k). apply lookup_insert_eq.
    + intros k' z Hk'. apply (Hfit k').
      rewrite lookup_insert_ne; [done|]. intros ->. congruence.
Qed.

(** Claim C2, amended.  For a mapping none of whose values is an [int] too
    large for a float, [sanitize_neuro] returns a mapping with exactly the
    same keys; a value that converts is stored as its conversion (finite or
    not), a value whose conversion raises [ValueError] or [TypeError] as
    exactly 0.5. *)
Theorem sanitize_neuro_spec (m : gmap string jval) :
  ints_fit m →
  ∃ out, sanitize_neuro m = Ok out
    ∧ dom out = dom m
    ∧ (∀ k v f, m !! k = Some v → py_float v = Ok f → out !! k = Some f)
    ∧ (∀ k v, m !! k = Some v →
         py_float v = Raise ValueError ∨ py_float v = Raise TypeError →
         out !! k = Some (Fin (1 # 2))).
Proof.
  intros Hfit. exists (converted <$> m).
  split; [by apply sanitize_neuro_fmap|].
  split; [apply dom_fmap_L|].
  split.
  - intros k v f Hk Hv. rewrite lookup_fmap, Hk. simpl.
    unfold converted. by rewrite Hv.
  - intros k v Hk Hv. rewrite lookup_fmap, Hk. simpl.
    unfold converted. by destruct Hv as [-> | ->].
Qed.

Lemma sanitize_neuro_cases (m : gmap string jval) :
  (sanitize_neuro m = Ok (converted <$> m) ∧ ints_fit m)
  ∨ (sanitize_neuro m = Raise OverflowError
     ∧ ∃ k z, m !! k = Some (JInt z) ∧ int_fits_float z = false).
Proof.
  unfold sanitize_neuro.
  apply (map_fold_weak_ind
           (λ r m, (r = Ok (converted <$> m) ∧ ints_fit m)
                   ∨ (r = Raise OverflowError
                      ∧ ∃ k z, m !! k = Some (JInt z) ∧ int_fits_float z = false))).
  - left. split; [by rewrite fmap_empty|]. intros k z Hk. by rewrite lookup_empty in Hk.
  - intros k v m' r Hk [[-> Hfit]|[-> (k' & z & Hk' & Hz)]].
    + assert (Hdec : (∃ z, v = JInt z ∧ int_fits_float z = false)
                     ∨ (∀ z, v = JInt z → int_fits_float z = true)).
      { destruct v as [| |z| | | |]; try (right; intros ? [=]; fail).
        destruct (int_fits_float z) eqn:E.
        - right. by intros ? [= <-].
        - left. by exists z. }
      destruct Hdec as [(z & -> & Hz)|Hv].
      * right. split.
        -- unfold sanitize_item, float_or_default. simpl. unfold float_of_int. by rewrite Hz.
        -- exists k, z. split; [apply lookup_insert_eq|done].
      * left. split.
        -- unfold sanitize_item. simpl. rewrite float_or_default_converted by done.
           simpl. by rewrite fmap_insert.
        -- intros j z Hj. destruct (decide (j = k)) as [->|Hne].
           ++ rewrite lookup_insert_eq in Hj. injection Hj as ->. by apply Hv.
           ++ rewrite lookup_insert_ne in Hj by done. by apply (Hfit j).
    + right. split; [done|]. exists k', z. split; [|done].
      rewrite lookup_insert_ne; [done|]. intros ->. congruence.
Qed.

(** An [int] too large for a float leaves the function through
    [OverflowError], which the [except] clause does not name. *)
Lemma sanitize_neuro_raises (m : gmap string jval) (k : string) (z : Z) :
  m !! k = Some (JInt z) → int_fits_float z = false →
  sanitize_neuro m = Raise OverflowError.
Proof.
  intros Hk Hz. destruct (sanitize_neuro_cases m) as [[_ Hfit]|[Hr _]]; [|done].
  specialize (Hfit k z Hk). congruence.
Qed.

End SanitizeFacts.

Lemma sanitize_neuro_spec_witness :
  ∃ out, sanitize_neuro (H := reference_builtins) {[ "dopamine" := JStr "x" ]} = Ok out
    ∧ dom out = dom ({[ "dopamine" := JStr "x" ]} : gmap string jval)
    ∧ (∀ k v f, ({[ "dopamine" := JStr "x" ]} : gmap string jval) !! k = Some v →
         py_float (H := reference_builtins) v = Ok f → out !! k = Some f)
    ∧ (∀ k v, ({[ "dopamine" := JStr "x" ]} : gmap string jval) !! k = Some v →
         py_float (H := reference_builtins) v = Raise ValueError
         ∨ py_float (H := reference_builtins) v = Raise TypeError →
         out !! k = Some (Fin (1 # 2))).
Proof.
  apply (sanitize_neuro_spec (H := reference_builtins)).
  intros k z Hk. apply lookup_singleton_Some in Hk as [_ Hk]. discriminate Hk.
Defined.

(** Claim C2, counterexample.  An infinite float and the text "nan" are
    stored as they convert: the output holds values that are not finite. *)
Lemma sanitize_neuro_not_finite :
  sanitize_neuro (H := reference_builtins) {[ "dopamine" := JFloat PInf ]}
    = Ok {[ "dopamine" := PInf ]}
  ∧ sanitize_neuro (H := reference_builtins) {[ "dopamine" := JStr "nan" ]}
    = Ok {[ "dopamine" := NaN ]}
  ∧ is_finite PInf = false ∧ is_finite NaN = false.
Proof. repeat split; reflexivity. Qed.

Example sanitize_example :
  sanitize_neuro (H := reference_builtins) {[ "dopamine" := JStr "x" ]}
    = Ok {[ "dopamine" := Fin (1 # 2) ]}.
Proof. reflexivity. Qed.

Example sanitize_huge_int :
  sanitize_neuro (H := reference_builtins) {[ "dopamine" := JInt (2 ^ 1024) ]}
    = Raise OverflowError.
Proof. reflexivity. Qed.

Lemma mem_elem_of (x : string) (xs : list string) :
  PyStr.mem x xs = true ↔ x ∈ xs.
Proof.
  unfold PyStr.mem. rewrite existsb_exists. split.
  - intros (y & Hy & Heq). apply String.eqb_eq in Heq as ->. by apply list_elem_of_In.
  - intros Hx. exists x. split; [by apply list_elem_of_In|apply String.eqb_refl].
Qed.

Lemma mem_not_elem_of (x : string) (xs : list string) :
  PyStr.mem x xs = false ↔ x ∉ xs.
Proof.
  rewrite <- mem_elem_of. destruct (PyStr.mem x xs); split; intros; congruence.
Qed.

Lemma count_in_occurrences (vocabulary ws : list string) :
  count_in vocabulary ws = occurrences vocabulary ws.
Proof.
  unfold occurrences. induction ws as [|w ws IH]; [done|].
  simpl. rewrite IH. destruct (PyStr.mem w vocabulary) eqn:E.
  - apply mem_elem_of in E. rewrite filter_cons_True by done. simpl. lia.
  - apply mem_not_elem_of in E. rewrite filter_cons_False by done. lia.
Qed.

Lemma count_in_app (vocabulary ws1 ws2 : list string) :
  count_in vocabulary (ws1 ++ ws2)
  = (count_in vocabulary ws1 + count_in vocabulary ws2)%Z.
Proof. induction ws1 as [|w ws1 IH]; simpl; [done|]. rewrite IH. lia. Qed.

(** Claim C10.  The score recorded for a mood text is
    [round((p - n + 3) / 6, 2)], [p] and [n] the numbers of lowered,
    whitespace-separated words found among the positive and the negative
    words, a repeated word counted each time. *)
Theorem normalized_mood_spec (mood : string) :
  normalized_mood mood =
  py_round
    ((inject_Z (occurrences pos_words (PyStr.split (PyStr.lower mood))
                - occurrences neg_words (PyStr.split (PyStr.lower mood))) + 3) / 6)%Q 2.
Proof.
  unfold normalized_mood. by rewrite !count_in_occurrences.
Qed.

Example normalized_mood_repeats :
  normalized_mood "Happy and happy, but TIRED" = (50 # 100)%Q
  ∧ normalized_mood "happy HAPPY	hopeful" = (100 # 100)%Q
  ∧ normalized_mood "sad" = (33 # 100)%Q.
Proof. repeat split; reflexivity. Qed.

Lemma scent_tip_morning (s : string) :
  s ∈ nighttime_scents → scent_tip "morning" s = Some MorningTip.
Proof.
  intros Hs. unfold scent_tip.
  assert (s ≠ "") as Hne.
  { intros ->. apply list_elem_of_In in Hs. simpl in Hs. intuition discriminate. }
  apply String.eqb_neq in Hne. apply mem_elem_of in Hs.
  by rewrite Hne, Hs.
Qed.

Lemma scent_tip_evening (s : string) :
  s ∈ daytime_scents → scent_tip "evening" s = Some EveningTip.
Proof.
  intros Hs. unfold scent_tip.
  assert (s ≠ "") as Hne.
  { intros ->. apply list_elem_of_In in Hs. simpl in Hs. intuition discriminate. }
  apply String.eqb_neq in Hne. apply mem_elem_of in Hs.
  by rewrite Hne, Hs.
Qed.

Lemma scent_tip_other_window (w s : string) :
  w ≠ "morning" → w ≠ "evening" → scent_tip w s = None.
Proof.
  intros H1 H2. unfold scent_tip.
  apply String.eqb_neq in H1, H2. rewrite H1, H2.
  by destruct (s =? "")%string.
Qed.

Lemma scent_tip_morning_other (s : string) :
  s ∉ nighttime_scents → scent_tip "morning" s = None.
Proof.
  intros Hs. unfold scent_tip. apply mem_not_elem_of in Hs. rewrite Hs.
  by destruct (s =? "")%string.
Qed.

Lemma scent_tip_evening_other (s : string) :
  s ∉ daytime_scents → scent_tip "evening" s = None.
Proof.
  intros Hs. unfold scent_tip. apply mem_not_elem_of in Hs. rewrite Hs.
  by destruct (s =? "")%string.
Qed.

Lemma strip_scent_name (s : string) :
  s ∈ nighttime_scents ++ daytime_scents → PyStr.strip s = s.
Proof.
  intros Hs. apply list_elem_of_In in Hs. simpl in Hs.
  repeat (destruct Hs as [<-|Hs]; [reflexivity|]). done.
Qed.

(** Claim C3, amended.  With the window exactly "morning" and the scent,
    lowered and stripped of surrounding whitespace, among the nighttime
    scents, the morning tip is given; with the window exactly "evening" and
    the scent so normalised among the daytime scents, the evening tip; a
    scent equal to a member up to case is such a scent.  No tip is given
    when the normalised scent is not in the set of the window, nor when the
    window equals neither word up to case. *)
Theorem circadian_advisory_spec (window scent : string) :
  (window = "morning" → PyStr.strip (PyStr.lower scent) ∈ nighttime_scents →
     circadian_advisory window scent = Some MorningTip)
  ∧ (window = "evening" → PyStr.strip (PyStr.lower scent) ∈ daytime_scents →
     circadian_advisory window scent = Some EveningTip)
  ∧ (window = "morning" → PyStr.lower scent ∈ nighttime_scents →
     circadian_advisory window scent = Some MorningTip)
  ∧ (window = "evening" → PyStr.lower scent ∈ daytime_scents →
     circadian_advisory window scent = Some EveningTip)
  ∧ (window = "morning" → PyStr.strip (PyStr.lower scent) ∉ nighttime_scents →
     circadian_advisory window scent = None)
  ∧ (window = "evening" → PyStr.strip (PyStr.lower scent) ∉ daytime_scents →
     circadian_advisory window scent = None)
  ∧ (PyStr.lower window ≠ "morning" → PyStr.lower window ≠ "evening" →
     circadian_advisory window scent = None).
Proof.
  unfold circadian_advisory. repeat split.
  - intros -> Hs. by apply scent_tip_morning.
  - intros -> Hs. by apply scent_tip_evening.
  - intros -> Hs. rewrite strip_scent_name; [by apply scent_tip_morning|].
    apply elem_of_app. by left.
  - intros -> Hs. rewrite strip_scent_name; [by apply scent_tip_evening|].
    apply elem_of_app. by right.
  - intros -> Hs. by apply scent_tip_morning_other.
  - intros -> Hs. by apply scent_tip_evening_other.
  - intros H1 H2. apply scent_tip_other_window.
    + intros ->. by apply H1.
    + intros ->. by apply H2.
Qed.

(** Claim C3, counterexample.  A scent that is not a nighttime scent up to
    case (it has a leading blank) still gets the morning tip, and the window
    "Morning", equal to "morning" up to case, gets none. *)
Lemma circadian_advisory_not_case_only :
  circadian_advisory "morning" " lavender" = Some MorningTip
  ∧ PyStr.mem (PyStr.lower " lavender") nighttime_scents = false
  ∧ circadian_advisory "Morning" "lavender" = None
  ∧ PyStr.lower "Morning" = "morning".
Proof. repeat split; reflexivity. Qed.

Example circadian_advisory_examples :
  circadian_advisory "morning" "lavender" = Some MorningTip
  ∧ circadian_advisory "morning" "citrus" = None
  ∧ circadian_advisory "evening" "citrus" = Some EveningTip
  ∧ circadian_advisory "evening" " Tonka Bean " = None
  ∧ circadian_advisory "morning" " Tonka Bean " = Some MorningTip.
Proof. repeat split; reflexivity. Qed.

Section GameLookupFacts.
Context `{Builtins}.

Lemma entry_name_lowered (g : jval) (n : string) :
  lowered_name g = Some n → entry_name g = Ok n.
Proof.
  unfold lowered_name, entry_name.
  destruct g as [| | | | | |o]; try done.
  destruct (o !! "name") as [[| | | |s| |]|]; try done. by intros [= <-].
Qed.

Lemma first_named_found (w : string) (gs : list jval) (g : jval) :
  Forall (λ g, is_Some (lowered_name g)) gs →
  is_first_named w gs g → first_named w gs = Ok (Some g).
Proof.
  intros Hwf (i & Hi & Hg & Hfirst).
  revert i Hi Hfirst. induction Hwf as [|g0 gs [n Hn] Hwf IH]; intros i Hi Hfirst.
  - by rewrite lookup_nil in Hi.
  - simpl. rewrite (entry_name_lowered _ _ Hn). simpl.
    destruct i as [|i].
    + simpl in Hi. injection Hi as ->.
      assert (n = w) as -> by congruence. by rewrite String.eqb_refl.
    + assert (n ≠ w) as Hne.
      { intros ->. by apply (Hfirst 0%nat g0); [lia| |]. }
      apply String.eqb_neq in Hne. rewrite Hne.
      apply (IH i); [done|].
      intros j g' Hj Hg'. apply (Hfirst (S j) g'); [lia|done].
Qed.

Lemma first_named_absent (w : string) (gs : list jval) :
  Forall (λ g, is_Some (lowered_name g)) gs →
  (∀ g, g ∈ gs → lowered_name g ≠ Some w) →
  first_named w gs = Ok None.
Proof.
  intros Hwf. induction Hwf as [|g0 gs [n Hn] Hwf IH]; intros Habs; [done|].
  simpl. rewrite (entry_name_lowered _ _ Hn). simpl.
  assert (n ≠ w) as Hne.
  { intros ->. apply (Habs g0); [left|done]. }
  apply String.eqb_neq in Hne. rewrite Hne.
  apply IH. intros g Hg. apply Habs. by right.
Qed.

Lemma first_named_present (w : string) (gs : list jval) :
  Forall (λ g, is_Some (lowered_name g)) gs →
  w ∈ omap lowered_name gs →
  ∃ g, is_first_named w gs g.
Proof.
  intros Hwf. induction Hwf as [|g0 gs [n Hn] Hwf IH]; intros Hin.
  - simpl in Hin. by apply elem_of_nil in Hin.
  - simpl in Hin. rewrite Hn in Hin.
    destruct (decide (n = w)) as [->|Hne].
    + exists g0, 0%nat. split; [done|]. split; [done|]. intros j g' Hj. lia.
    + apply elem_of_cons in Hin as [->|Hin]; [done|].
      destruct (IH Hin) as (g & i & Hi & Hg & Hfirst).
      exists g, (S i). split; [done|]. split; [done|].
      intros [|j] g' Hj Hg'.
      * simpl in Hg'. injection Hg' as <-. congruence.
      * apply (Hfirst j g'); [lia|done].
Qed.

Lemma entry_names_lowered (gs : list jval) :
  Forall (λ g, is_Some (lowered_name g)) gs →
  entry_names gs = Ok (omap lowered_name gs).
Proof.
  induction 1 as [|g0 gs [n Hn] Hwf IH]; [done|].
  simpl. rewrite (entry_name_lowered _ _ Hn), IH, Hn. reflexivity.
Qed.

(** Claim C6.  On a table whose entries all have a name, and with a closest
    match taken among the names it is given: the first entry whose lowered
    name equals the lowered, stripped query is returned whenever there is
    one; otherwise the first entry named by the closest match, when there is
    a closest match; otherwise no entry.  An empty table gives no entry, and
    whatever the table and the query are, an exception in the body gives no
    entry instead of leaving the function. *)
Theorem find_game_entry_spec (game_profiles : list jval) (name : string) :
  (∀ w ps m, m ∈ get_close_matches w ps → m ∈ ps) →
  Forall (λ g, is_Some (lowered_name g)) game_profiles →
  (∀ g, is_first_named (PyStr.strip (PyStr.lower name)) game_profiles g →
     find_game_entry game_profiles (JStr name) = Some g)
  ∧ ((∀ g, g ∈ game_profiles → lowered_name g ≠ Some (PyStr.strip (PyStr.lower name))) →
     ∀ m rest,
       get_close_matches (PyStr.strip (PyStr.lower name))
         (omap lowered_name game_profiles) = m :: rest →
       ∃ g, find_game_entry game_profiles (JStr name) = Some g
            ∧ is_first_named m game_profiles g)
  ∧ ((∀ g, g ∈ game_profiles → lowered_name g ≠ Some (PyStr.strip (PyStr.lower name))) →
     get_close_matches (PyStr.strip (PyStr.lower name))
       (omap lowered_name game_profiles) = [] →
     find_game_entry game_profiles (JStr name) = None)
  ∧ (game_profiles = [] → find_game_entry game_profiles (JStr name) = None)
  ∧ (∀ (gs : list jval) (v : jval) (e : exn),
       find_game_entry_body gs v = Raise e → find_game_entry gs v = None).
Proof.
  intros Hcontract Hwf. repeat split.
  - intros g Hg. unfold find_game_entry, find_game_entry_body. simpl.
    by rewrite (first_named_found _ _ _ Hwf Hg).
  - intros Habs m rest Hm.
    assert (Hin : m ∈ omap lowered_name game_profiles).
    { apply (Hcontract (PyStr.strip (PyStr.lower name))). rewrite Hm. left. }
    destruct (first_named_present m _ Hwf Hin) as (g & Hg).
    exists g. split; [|done].
    unfold find_game_entry, find_game_entry_body. simpl.
    rewrite (first_named_absent _ _ Hwf Habs). simpl.
    rewrite (entry_names_lowered _ Hwf). simpl. rewrite Hm.
    by rewrite (first_named_found _ _ _ Hwf Hg).
  - intros Habs Hm.
    unfold find_game_entry, find_game_entry_body. simpl.
    rewrite (first_named_absent _ _ Hwf Habs). simpl.
    rewrite (entry_names_lowered _ Hwf). simpl. by rewrite Hm.
  - intros ->. unfold find_game_entry, find_game_entry_body. simpl.
    by destruct (get_close_matches _ _).
  - intros gs v e He. unfold find_game_entry. by rewrite He.
Qed.

End GameLookupFacts.

(* The difflib model meets the contract. *)
Lemma largest_elem_of (p : Q * string) (rest : list (Q * string)) :
  Difflib.largest p rest ∈ p :: rest.
Proof.
  revert p. induction rest as [|q rest IH]; intros p; simpl; [left|].
  destruct (Difflib.better q p).
  - right. apply IH.
  - specialize (IH p). apply elem_of_cons in IH as [->|IH]; [left|by right; right].
Qed.

Lemma difflib_close_matches_elem_of (w : string) (ps : list string) (m : string) :
  m ∈ Difflib.get_close_matches w ps → m ∈ ps.
Proof.
  unfold Difflib.get_close_matches.
  destruct (List.filter _ _) as [|p rest] eqn:E; [by intros ?%elem_of_nil|].
  intros ->%list_elem_of_singleton.
  pose proof (largest_elem_of p rest) as Hl. rewrite <- E in Hl.
  apply list_elem_of_In, filter_In in Hl as [Hl _].
  apply in_map_iff in Hl as (x & <- & Hx). simpl. by apply list_elem_of_In.
Qed.

Example find_game_entry_examples :
  find_game_entry (H := reference_builtins) sample_games (JStr " MINECRAFT ")
    = Some (JObj {[ "name" := JStr "Minecraft" ]})
  ∧ find_game_entry (H := reference_builtins) sample_games (JStr "halo infinit")
    = Some (JObj {[ "name" := JStr "Halo Infinite" ]})
  ∧ find_game_entry (H := reference_builtins) sample_games (JStr "tetris") = None
  ∧ find_game_entry (H := reference_builtins) sample_games JNull = None
  ∧ find_game_entry (H := reference_builtins) (JNull :: sample_games) (JStr "Minecraft") = None
  ∧ find_game_entry (H := reference_builtins) [] (JStr "Minecraft") = None.
Proof. repeat split; vm_compute; reflexivity. Qed.

Lemma round_half_even_near (x : Q) :
  (x - (1 # 2) <= inject_Z (round_half_even x) <= x + (1 # 2))%Q.
Proof.
  unfold round_half_even.
  pose proof (Qfloor_le x) as Hlo. pose proof (Qlt_floor x) as Hhi.
  rewrite inject_Z_plus in Hhi. change (inject_Z 1) with 1%Q in Hhi.
  destruct (x - inject_Z (Qfloor x) ?= 1 # 2)%Q eqn:E.
  - apply Qeq_alt in E.
    destruct (Z.even (Qfloor x));
      [|rewrite inject_Z_plus; change (inject_Z 1) with 1%Q]; lra.
  - apply Qlt_alt in E. lra.
  - apply Qgt_alt in E. rewrite inject_Z_plus. change (inject_Z 1) with 1%Q. lra.
Qed.

Lemma py_round_2_hundredths (q : Q) :
  py_round q 2 = (round_half_even (q * 100) # 100)%Q.
Proof. reflexivity. Qed.

Lemma Qmake_hundredths (k : Z) : (k # 100 == inject_Z k * (1 # 100))%Q.
Proof. unfold Qeq. simpl. lia. Qed.

Lemma py_round_2_near (q : Q) :
  (q - (1 # 200) <= py_round q 2 <= q + (1 # 200))%Q.
Proof.
  rewrite py_round_2_hundredths, Qmake_hundredths.
  pose proof (round_half_even_near (q * 100)). lra.
Qed.







Example summarise_examples :
  summarise (20 # 100) [50 # 100; 80 # 100]%Q
    = {| avg_score := 50 # 100; volatility := 24 # 100; mood_trend := Improving |}
  ∧ summarise (80 # 100) [50 # 100; 20 # 100]%Q
    = {| avg_score := 50 # 100; volatility := 24 # 100; mood_trend := Declining |}
  ∧ mood_trend (summarise (50 # 100) [67 # 100; 50 # 100]%Q) = Declining.
Proof. repeat split; reflexivity. Qed.



Lemma find_game_entry_spec_witness :
  find_game_entry (H := reference_builtins) sample_games (JStr " MINECRAFT ")
    = Some (JObj {[ "name" := JStr "Minecraft" ]})
  ∧ ∃ g, find_game_entry (H := reference_builtins) sample_games (JStr "halo infinit") = Some g
         ∧ is_first_named "halo infinite" sample_games g.
Proof.
  assert (Hwf : Forall (λ g, is_Some (lowered_name g)) sample_games).
  { repeat constructor; eexists; reflexivity. }
  split.
  - destruct (find_game_entry_spec (H := reference_builtins) sample_games " MINECRAFT "
                difflib_close_matches_elem_of Hwf) as (Hexact & _).
    apply Hexact. exists 2%nat. split; [reflexivity|]. split; [reflexivity|].
    intros [|[|j]] g' Hj Hg'; [| |lia].
    + injection Hg' as <-. discriminate.
    + injection Hg' as <-. discriminate.
  - destruct (find_game_entry_spec (H := reference_builtins) sample_games "halo infinit"
                difflib_close_matches_elem_of Hwf) as (_ & Hclose & _).
    apply (Hclose) with (rest := []).
    + intros g Hg. apply list_elem_of_In in Hg. simpl in Hg.
      destruct Hg as [<-|[<-|[<-|[]]]]; discriminate.
    + vm_compute. reflexivity.
Defined.

(** Unfolding one block of the script down to its cases. *)
Ltac run_simpl :=
  repeat (unfold mbind, run_bind, lift, write, read_state, mret, run_ret; simpl).

Section ProfileFormFacts.
Context `{Builtins}.
Variable game_profiles : list jval.

(** A reply that does not pass the checks of lines 82-94 leaves the
    state as it was. *)
Lemma generate_submit_rejected (name : string) (reply : http_reply) (s : session) :
  accepted reply = None →
  snd (generate_submit game_profiles name reply s) = s
  ∧ is_generated (fst (generate_submit game_profiles name reply s)) = false.
Proof.
  unfold accepted, generate_submit, generate_block.
  destruct reply as [|c [profile|]]; run_simpl; [done| |].
  - destruct (c =? 200)%Z; run_simpl; [|done].
    destruct profile as [| | | | | |o]; run_simpl; try done.
    destruct (is_str (dict_get o "status" JNull) "error"); run_simpl; [done|].
    destruct (has_key o "neurotransmitters"); run_simpl; done.
  - destruct (c =? 200)%Z; run_simpl; done.
Qed.

(** What an accepted reply does, step by step. *)
Lemma generate_submit_accepted (name : string) (reply : http_reply) (s : session)
    (o : gmap string jval) :
  accepted reply = Some o →
  generate_submit game_profiles name reply s =
    match show_sentiment_bar (dict_get o "goals_sentiment" (JInt 0)) with
    | Raise e => (RequestFailed e, set_profile (JObj o) s)
    | Ok goals =>
        match show_sentiment_bar (dict_get o "stressors_sentiment" (JInt 0)) with
        | Raise e => (RequestFailed e, set_profile (JObj o) s)
        | Ok stressors =>
            match render game_profiles o with
            | Raise e => (RequestFailed e, stored name o s)
            | Ok v => (Generated goals stressors v, stored_again name o s)
            end
        end
    end.
Proof.
  unfold accepted, generate_submit, generate_block.
  destruct reply as [|c [profile|]]; run_simpl; [done| |done].
  destruct profile as [| | | | | |o']; try done.
  destruct (c =? 200)%Z; run_simpl; [|done].
  destruct (is_str (dict_get o' "status" JNull) "error"); run_simpl; [done|].
  destruct (has_key o' "neurotransmitters"); run_simpl; [|done].
  intros [= ->].
  destruct (show_sentiment_bar (dict_get o "goals_sentiment" (JInt 0))); run_simpl; [|done].
  destruct (show_sentiment_bar (dict_get o "stressors_sentiment" (JInt 0))); run_simpl; [|done].
  destruct (render game_profiles o); run_simpl; done.
Qed.

Lemma generate_submit_ledger (name : string) (reply : http_reply) (s : session) :
  ss_emotion_timeline (snd (generate_submit game_profiles name reply s))
    = ss_emotion_timeline s
  ∧ ss_feedback_log (snd (generate_submit game_profiles name reply s))
    = ss_feedback_log s.
Proof.
  destruct (accepted reply) as [o|] eqn:E.
  - rewrite (generate_submit_accepted name reply s o E).
    destruct (show_sentiment_bar _); [|done].
    destruct (show_sentiment_bar _); [|done].
    destruct (render _ _); done.
  - by destruct (generate_submit_rejected name reply s E) as [-> _].
Qed.

(** Claim C5, amended.  A submission whose reply does not pass the checks
    of lines 82-94 (no reply, a status other than 200, a body that is not a
    JSON object, a [status: "error"] body, no [neurotransmitters] key)
    leaves the session state unchanged and generates nothing.  A reply that
    passes them is stored at once: whatever happens afterwards, the session
    holds the new profile; when processing raises, the state is the one
    after line 96 or after lines 116-119. *)
Theorem generate_submit_state (name : string) (reply : http_reply) (s : session) :
  (accepted reply = None →
     snd (generate_submit game_profiles name reply s) = s
     ∧ is_generated (fst (generate_submit game_profiles name reply s)) = false)
  ∧ (fst (generate_submit game_profiles name reply s) = ApiError
     ∨ fst (generate_submit game_profiles name reply s) = ServerError
     ∨ fst (generate_submit game_profiles name reply s) = MissingNeurotransmitters →
     snd (generate_submit game_profiles name reply s) = s)
  ∧ (∀ o, accepted reply = Some o →
       ss_profile (snd (generate_submit game_profiles name reply s)) = Some (JObj o)
       ∧ (∀ e, fst (generate_submit game_profiles name reply s) = RequestFailed e →
            snd (generate_submit game_profiles name reply s) = set_profile (JObj o) s
            ∨ snd (generate_submit game_profiles name reply s) = stored name o s)
       ∧ (is_generated (fst (generate_submit game_profiles name reply s)) = true →
            snd (generate_submit game_profiles name reply s) = stored_again name o s)).
Proof.
  split; [apply generate_submit_rejected|]. split.
  - intros Hr. destruct (accepted reply) as [o|] eqn:E.
    + rewrite (generate_submit_accepted name reply s o E) in Hr. exfalso.
      destruct (show_sentiment_bar _); [|simpl in Hr; intuition discriminate].
      destruct (show_sentiment_bar _); [|simpl in Hr; intuition discriminate].
      destruct (render _ _); simpl in Hr; intuition discriminate.
    + by destruct (generate_submit_rejected name reply s E).
  - intros o E. rewrite (generate_submit_accepted name reply s o E).
    destruct (show_sentiment_bar _);
      [|simpl; repeat split; intros; try discriminate; auto].
    destruct (show_sentiment_bar _);
      [|simpl; repeat split; intros; try discriminate; auto].
    destruct (render _ _); simpl; repeat split; intros; try discriminate; auto.
Qed.

End ProfileFormFacts.

Lemma data_frame_columns (ts : list Z) (scores : list Q) (feedback : list Z)
    (windows : list jval) :
  length scores = length ts → length feedback = length ts → length windows = length ts →
  ∃ df, data_frame ts scores feedback windows = Ok df
        ∧ map row_timestamp df = ts
        ∧ map row_score df = scores
        ∧ map row_feedback df = feedback
        ∧ map row_window df = windows.
Proof.
  revert scores feedback windows.
  induction ts as [|t ts IH]; intros [|q scores] [|f feedback] [|w windows];
    simpl; intros H1 H2 H3; try discriminate.
  - exists []. done.
  - destruct (IH scores feedback windows) as (df & -> & Ht & Hq & Hf & Hw); [lia..|].
    eexists. split; [reflexivity|]. simpl. by rewrite Ht, Hq, Hf, Hw.
Qed.

Lemma data_frame_ragged (ts : list Z) (scores : list Q) (feedback : list Z)
    (windows : list jval) :
  length feedback ≠ length scores →
  data_frame ts scores feedback windows = Raise ValueError.
Proof.
  revert scores feedback windows.
  induction ts as [|t ts IH]; intros [|q scores] [|f feedback] [|w windows];
    simpl; intros Hne; try done.
  rewrite IH; [done|]. lia.
Qed.

Lemma date_range_length (now : Z) (n : nat) : length (date_range now n) = n.
Proof. unfold date_range. by rewrite length_map, length_seq. Qed.

Lemma make_log_columns (now : Z) (scores : list Q) (feedback : list Z) (w : jval) :
  length feedback = length scores →
  ∃ df, make_log now scores feedback w = Ok df
        ∧ map row_timestamp df = date_range now (length scores)
        ∧ map row_score df = scores
        ∧ map row_feedback df = feedback
        ∧ map row_window df = replicate (length scores) w.
Proof.
  intros Hlen. unfold make_log. apply data_frame_columns.
  - by rewrite date_range_length.
  - by rewrite date_range_length.
  - by rewrite length_replicate, date_range_length.
Qed.

Section LedgerFacts.
Context `{Builtins} `{Rendering}.
Variable game_profiles : list jval.

Lemma init_ledger_scores (s : session) :
  ledger_scores (init_ledger s) = ledger_scores s
  ∧ ledger_ratings (init_ledger s) = ledger_ratings s
  ∧ ss_emotion_timeline (init_ledger s) = Some (ledger_scores s)
  ∧ ss_feedback_log (init_ledger s) = Some (ledger_ratings s)
  ∧ ss_profile (init_ledger s) = ss_profile s.
Proof.
  unfold init_ledger, ledger_scores, ledger_ratings.
  destruct s as [p t n cw cn [tl|] [fl|]]; simpl; done.
Qed.

(** A reflection form submitted on a ledger whose two lists have the same
    length: either nothing is appended, or one score and one rating. *)
Lemma reflect_submit_ledger (mood events goals : string) (feedback now : Z)
    (backend : payload → http_reply) (s : session) (tl : list Q) (fl : list Z) :
  ss_emotion_timeline s = Some tl → ss_feedback_log s = Some fl →
  length tl = length fl →
  (∃ csv stats,
      reflect_submit mood events goals feedback now backend s
      = (Reflected (normalized_mood mood) feedback csv stats,
         set_feedback_log (fl ++ [feedback])
           (set_emotion_timeline (tl ++ [normalized_mood mood]) s)))
  ∨ (snd (reflect_submit mood events goals feedback now backend s) = s
     ∧ ∀ q f csv stats,
         fst (reflect_submit mood events goals feedback now backend s)
         ≠ Reflected q f csv stats).
Proof.
  intros Htl Hfl Hlen. unfold reflect_submit.
  destruct (ss_profile s) as [profile|]; [|right; done].
  destruct (build_payload _ _ _ _ _) as [p|e]; [|right; done].
  unfold reflect_block.
  destruct (backend p) as [|c [body|]]; run_simpl; [right; done| |].
  - destruct (c =? 200)%Z; run_simpl; [|right; done].
    destruct body as [| | | | | |o]; run_simpl; try (right; done).
    rewrite Htl. run_simpl. rewrite Hfl. run_simpl.
    destruct (make_log_columns now (tl ++ [normalized_mood mood]) (fl ++ [feedback])
                (default (JStr "") (ss_circadian_window s))) as (df & -> & _).
    { rewrite !length_app. simpl. lia. }
    run_simpl. destruct (tl ++ [normalized_mood mood]) as [|q0 rest] eqn:E.
    { by destruct tl. }
    run_simpl. left. eauto.
  - destruct (c =? 200)%Z; run_simpl; right; done.
Qed.

Lemma main_ledger (ev : event) (s : session) :
  length (ledger_scores s) = length (ledger_ratings s) →
  ledger_scores (snd (main game_profiles ev s))
    = ledger_scores s ++ map fst (recorded ev (fst (main game_profiles ev s)))
  ∧ ledger_ratings (snd (main game_profiles ev s))
    = ledger_ratings s ++ map snd (recorded ev (fst (main game_profiles ev s)))
  ∧ length (recorded ev (fst (main game_profiles ev s)))
    = (if is_reflected (fst (main game_profiles ev s)) then 1 else 0)%nat.
Proof.
  intros Hlen.
  destruct (init_ledger_scores s) as (Hs & Hr & Htl & Hfl & _).
  destruct ev as [|name reply|mood events goals feedback now backend]; simpl.
  - rewrite Hs, Hr, !app_nil_r. done.
  - destruct (generate_submit game_profiles name reply s) as [r s1] eqn:E.
    pose proof (generate_submit_ledger game_profiles name reply s) as [H1 H2].
    rewrite E in H1, H2. simpl in H1, H2.
    assert (ledger_scores s1 = ledger_scores s) as Hs1
      by (unfold ledger_scores; by rewrite H1).
    assert (ledger_ratings s1 = ledger_ratings s) as Hr1
      by (unfold ledger_ratings; by rewrite H2).
    destruct (init_ledger_scores s1) as (Hs' & Hr' & _).
    destruct r; simpl; rewrite ?Hs', ?Hr', Hs1, Hr1, !app_nil_r; done.
  - destruct (reflect_submit_ledger mood events goals feedback now backend
                (init_ledger s) _ _ Htl Hfl Hlen) as [(csv & stats & ->)|[Hsame Hnot]].
    + simpl. unfold ledger_scores, ledger_ratings. simpl. done.
    + destruct (reflect_submit _ _ _ _ _ _ _) as [r s1] eqn:E. simpl in *. subst s1.
      rewrite Hs, Hr.
      destruct r; simpl; rewrite ?app_nil_r; try done.
      exfalso. by eapply Hnot.
Qed.

Lemma session_run_ledger (evs : list event) (s : session) :
  length (ledger_scores s) = length (ledger_ratings s) →
  ledger_scores (snd (session_run game_profiles evs s))
    = ledger_scores s
      ++ map fst (recorded_all evs (fst (session_run game_profiles evs s)))
  ∧ ledger_ratings (snd (session_run game_profiles evs s))
    = ledger_ratings s
      ++ map snd (recorded_all evs (fst (session_run game_profiles evs s)))
  ∧ length (recorded_all evs (fst (session_run game_profiles evs s)))
    = length (filter (λ o, is_reflected o) (fst (session_run game_profiles evs s))).
Proof.
  revert s. induction evs as [|ev evs IH]; intros s Hlen; simpl.
  - rewrite !app_nil_r. done.
  - destruct (main_ledger ev s Hlen) as (Hs & Hr & Hn).
    destruct (main game_profiles ev s) as [o s1] eqn:E1. simpl in *.
    assert (Hlen1 : length (ledger_scores s1) = length (ledger_ratings s1)).
    { rewrite Hs, Hr, !length_app, !length_map. lia. }
    destruct (IH s1 Hlen1) as (Hs' & Hr' & Hn').
    destruct (session_run game_profiles evs s1) as [outs s2] eqn:E2. simpl in *.
    rewrite Hs', Hr', Hs, Hr, !map_app, !app_assoc. split; [done|]. split; [done|].
    rewrite length_app, Hn, Hn'.
    destruct (is_reflected o) eqn:Eo.
    + rewrite filter_cons_True by (by rewrite Eo). simpl. lia.
    + rewrite filter_cons_False by (rewrite Eo; simpl; tauto). simpl. lia.
Qed.

End LedgerFacts.

Lemma normalized_mood_range (mood : string) :
  (0 <= normalized_mood mood <= 1)%Q ↔ (-3 <= mood_balance mood <= 3)%Z.
Proof.
  unfold normalized_mood. rewrite !count_in_occurrences. fold (mood_balance mood).
  set (b := mood_balance mood).
  rewrite py_round_2_hundredths.
  pose proof (round_half_even_near ((inject_Z b + 3) / 6 * 100)) as Hnear.
  set (k := round_half_even ((inject_Z b + 3) / 6 * 100)) in *.
  assert (Hx : ((inject_Z b + 3) / 6 * 100 == (inject_Z b + 3) * (50 # 3))%Q)
    by field.
  rewrite Hx in Hnear.
  assert (Hk : (0 <= k # 100 <= 1)%Q ↔ (0 <= k <= 100)%Z).
  { unfold Qle. simpl. lia. }
  rewrite Hk. split.
  - intros [Hk0 Hk1].
    rewrite Zle_Qle in Hk0, Hk1. change (inject_Z 0) with 0%Q in Hk0.
    change (inject_Z 100) with 100%Q in Hk1.
    split.
    + assert (inject_Z (-4) < inject_Z b)%Q as Hb; [|rewrite <- Zlt_Qlt in Hb; lia].
      change (inject_Z (-4)) with (-4)%Q. lra.
    + assert (inject_Z b < inject_Z 4)%Q as Hb; [|rewrite <- Zlt_Qlt in Hb; lia].
      change (inject_Z 4) with 4%Q. lra.
  - intros [Hb0 Hb1].
    rewrite Zle_Qle in Hb0, Hb1. change (inject_Z (-3)) with (-3)%Q in Hb0.
    change (inject_Z 3) with 3%Q in Hb1.
    split.
    + assert (inject_Z (-1) < inject_Z k)%Q as Hlt; [|rewrite <- Zlt_Qlt in Hlt; lia].
      change (inject_Z (-1)) with (-1)%Q. lra.
    + assert (inject_Z k < inject_Z 101)%Q as Hlt; [|rewrite <- Zlt_Qlt in Hlt; lia].
      change (inject_Z 101) with 101%Q. lra.
Qed.

Section LedgerTheorem.
Context `{Builtins} `{Rendering}.
Variable game_profiles : list jval.

Lemma recorded_all_in (evs : list event) (outs : list outcome) (q : Q) (f : Z) :
  (q, f) ∈ recorded_all evs outs →
  ∃ mood events goals now backend,
    SubmitReflection mood events goals f now backend ∈ evs
    ∧ q = normalized_mood mood.
Proof.
  revert outs. induction evs as [|ev evs IH]; intros [|o outs]; simpl;
    try (by intros ?%elem_of_nil).
  intros [Hin|Hin]%elem_of_app.
  - destruct ev as [| |mood events goals feedback now backend]; simpl in Hin;
      try (by apply elem_of_nil in Hin).
    destruct o as [| |[]]; try (by apply elem_of_nil in Hin).
    apply list_elem_of_singleton in Hin. injection Hin as -> ->.
    exists mood, events, goals, now, backend. split; [left|done].
  - destruct (IH _ Hin) as (mood & events & goals & now & backend & Hev & Hq).
    exists mood, events, goals, now, backend. split; [by right|done].
Qed.

(** Claim C4, amended.  After any runs of the script from an empty session,
    with slider values between 0 and 5, the ledger holds as many scores as
    reflections succeeded and as many ratings as scores; they are, in
    order, the scores and ratings of the successful reflections; every
    rating is between 0 and 5, and every score is [normalized_mood] of a
    mood text, which lies in [0,1] exactly when positive and negative words
    differ by at most 3. *)
Theorem ledger_after_session (evs : list event) :
  Forall slider_in_range evs →
  length (ledger_scores (snd (session_run game_profiles evs empty_session)))
    = length (filter (λ o, is_reflected o)
                (fst (session_run game_profiles evs empty_session)))
  ∧ length (ledger_ratings (snd (session_run game_profiles evs empty_session)))
    = length (ledger_scores (snd (session_run game_profiles evs empty_session)))
  ∧ ledger_scores (snd (session_run game_profiles evs empty_session))
    = map fst (recorded_all evs (fst (session_run game_profiles evs empty_session)))
  ∧ ledger_ratings (snd (session_run game_profiles evs empty_session))
    = map snd (recorded_all evs (fst (session_run game_profiles evs empty_session)))
  ∧ Forall (λ r, 0 <= r <= 5)%Z
      (ledger_ratings (snd (session_run game_profiles evs empty_session)))
  ∧ Forall (λ q, ∃ mood, q = normalized_mood mood
                         ∧ ((0 <= q <= 1)%Q ↔ (-3 <= mood_balance mood <= 3)%Z))
      (ledger_scores (snd (session_run game_profiles evs empty_session))).
Proof.
  intros Hslider.
  destruct (session_run_ledger game_profiles evs empty_session eq_refl)
    as (Hs & Hr & Hn).
  simpl in Hs, Hr. rewrite Hs, Hr, !length_map.
  split; [done|]. split; [done|]. split; [done|]. split; [done|].
  set (entries := recorded_all evs (fst (session_run game_profiles evs empty_session))).
  assert (Hentries : ∀ q f, (q, f) ∈ entries →
            (0 <= f <= 5)%Z ∧ ∃ mood, q = normalized_mood mood).
  { intros q f Hin.
    destruct (recorded_all_in _ _ _ _ Hin) as (mood & events & goals & now & backend & Hev & ->).
    split; [|by exists mood].
    rewrite Forall_forall in Hslider. apply (Hslider _ Hev). }
  split.
  - apply Forall_forall. intros f Hf.
    apply list_elem_of_fmap in Hf as ([q f'] & -> & Hin). by apply (Hentries q f').
  - apply Forall_forall. intros q Hq.
    apply list_elem_of_fmap in Hq as ([q' f] & -> & Hin).
    destruct (Hentries q' f Hin) as (_ & mood & ->).
    exists mood. split; [done|]. apply normalized_mood_range.
Qed.

End LedgerTheorem.

Lemma ledger_after_session_witness :
  length (ledger_scores
            (snd (session_run (H := reference_builtins) (H0 := plain_rendering)
                    sample_games (sample_session "happy") empty_session))) = 1%nat
  ∧ Forall (λ r, 0 <= r <= 5)%Z
      (ledger_ratings
         (snd (session_run (H := reference_builtins) (H0 := plain_rendering)
                 sample_games (sample_session "happy") empty_session))).
Proof.
  assert (Hslider : Forall slider_in_range (sample_session "happy")).
  { repeat constructor; simpl; lia. }
  destruct (ledger_after_session (H := reference_builtins) (H0 := plain_rendering)
              sample_games (sample_session "happy") Hslider)
    as (Hlen & _ & _ & _ & Hratings & _).
  split; [|exact Hratings].
  rewrite Hlen. vm_compute. reflexivity.
Defined.

(** Claim C4, counterexample.  The mood text "happy happy happy happy" is
    recorded as 1.17. *)
Lemma ledger_score_above_one :
  ledger_scores
    (snd (session_run (H := reference_builtins) (H0 := plain_rendering)
            sample_games (sample_session "happy happy happy happy") empty_session))
    = [117 # 100]%Q
  ∧ ledger_ratings
      (snd (session_run (H := reference_builtins) (H0 := plain_rendering)
              sample_games (sample_session "happy happy happy happy") empty_session))
    = [3%Z]
  ∧ Qltb 1 (117 # 100) = true.
Proof. vm_compute. repeat split; reflexivity. Qed.

(** Claim C5, counterexample.  After Ann's successful submission, Bob's
    submission is accepted, fails with [KeyError] (no [brain_regions]) and
    leaves Bob's name and profile in the session. *)
Lemma generate_submit_partial_state :
  is_generated
    (fst (generate_submit (H := reference_builtins) sample_games "Ann"
            (Reply 200 (Some (JObj sample_profile))) empty_session)) = true
  ∧ fst (generate_submit (H := reference_builtins) sample_games "Bob"
           (Reply 200 (Some (JObj partial_profile)))
           (snd (generate_submit (H := reference_builtins) sample_games "Ann"
                   (Reply 200 (Some (JObj sample_profile))) empty_session)))
    = RequestFailed KeyError
  ∧ ss_name (snd (generate_submit (H := reference_builtins) sample_games "Ann"
                    (Reply 200 (Some (JObj sample_profile))) empty_session))
    = Some "Ann"
  ∧ ss_name
      (snd (generate_submit (H := reference_builtins) sample_games "Bob"
              (Reply 200 (Some (JObj partial_profile)))
              (snd (generate_submit (H := reference_builtins) sample_games "Ann"
                      (Reply 200 (Some (JObj sample_profile))) empty_session))))
    = Some "Bob"
  ∧ ss_profile
      (snd (generate_submit (H := reference_builtins) sample_games "Bob"
              (Reply 200 (Some (JObj partial_profile)))
              (snd (generate_submit (H := reference_builtins) sample_games "Ann"
                      (Reply 200 (Some (JObj sample_profile))) empty_session))))
    = Some (JObj partial_profile).
Proof. vm_compute. repeat split; reflexivity. Qed.













Module CsvFacts.
Import Csv.








End CsvFacts.

Section ExportFacts.
Context `{Rendering}.





End ExportFacts.



Example to_csv_example :
  (df ← make_log 0 [50 # 100; 117 # 100]%Q [3; 4]%Z (JStr "morning, late");
   mret (read_log (to_csv (H := plain_rendering) df)))
  = Ok (Some [ ("-60000000", (5 # 10)%Q, 3%Z, "morning, late");
               ("0", (117 # 100)%Q, 4%Z, "morning, late") ]).
Proof. vm_compute. reflexivity. Qed.

(* ================================================================== *)
(** * Further properties of the code *)
(* ================================================================== *)

Lemma lower_char_idempotent (c : ascii) :
  PyStr.lower_char (PyStr.lower_char c) = PyStr.lower_char c.
Proof. by destruct c as [[] [] [] [] [] [] [] []]. Qed.

Lemma lower_idempotent (s : string) : PyStr.lower (PyStr.lower s) = PyStr.lower s.
Proof. induction s as [|c s IH]; simpl; [done|]. by rewrite lower_char_idempotent, IH. Qed.

(** A text is clean on the left when it does not start with whitespace. *)
Lemma lstrip_clean (s : string) :
  match s with String c _ => PyStr.is_space c = false | EmptyString => True end →
  PyStr.lstrip s = s.
Proof. destruct s as [|c r]; simpl; [done|]. by intros ->. Qed.

Lemma lstrip_is_clean (s : string) :
  match PyStr.lstrip s with String c _ => PyStr.is_space c = false | EmptyString => True end.
Proof.
  induction s as [|c r IH]; simpl; [done|].
  destruct (PyStr.is_space c) eqn:E; [done|]. by simpl.
Qed.

Lemma rstrip_keeps_clean (s : string) :
  match s with String c _ => PyStr.is_space c = false | EmptyString => True end →
  match PyStr.rstrip s with String c _ => PyStr.is_space c = false | EmptyString => True end.
Proof.
  destruct s as [|c r]; simpl; [done|]. intros Hc.
  destruct (PyStr.rstrip r); [by rewrite Hc|done].
Qed.

Lemma rstrip_idempotent (s : string) : PyStr.rstrip (PyStr.rstrip s) = PyStr.rstrip s.
Proof.
  induction s as [|c r IH]; simpl; [done|].
  destruct (PyStr.rstrip r) as [|c' r'] eqn:E.
  - destruct (PyStr.is_space c) eqn:Ec; simpl; [done|]. by rewrite Ec.
  - change (PyStr.rstrip (String c (String c' r'))) with
      (match PyStr.rstrip (String c' r') with
       | EmptyString => if PyStr.is_space c then EmptyString else String c EmptyString
       | r'' => String c r''
       end).
    by rewrite IH.
Qed.

Lemma strip_idempotent (s : string) : PyStr.strip (PyStr.strip s) = PyStr.strip s.
Proof.
  unfold PyStr.strip.
  rewrite (lstrip_clean (PyStr.rstrip (PyStr.lstrip s))).
  - apply rstrip_idempotent.
  - apply rstrip_keeps_clean, lstrip_is_clean.
Qed.

Lemma has_char_lstrip (c : ascii) (s : string) :
  has_char c s = false → has_char c (PyStr.lstrip s) = false.
Proof.
  induction s as [|x r IH]; simpl; [done|].
  intros [Hx Hr]%orb_false_elim.
  destruct (PyStr.is_space x); [by apply IH|]. simpl. by rewrite Hx, Hr.
Qed.

Lemma has_char_rstrip (c : ascii) (s : string) :
  has_char c s = false → has_char c (PyStr.rstrip s) = false.
Proof.
  induction s as [|x r IH]; simpl; [done|].
  intros [Hx Hr]%orb_false_elim. specialize (IH Hr).
  destruct (PyStr.rstrip r) as [|c' r'].
  - destruct (PyStr.is_space x); simpl; [done|]. by rewrite Hx.
  - simpl. simpl in IH. by rewrite Hx, IH.
Qed.

Lemma has_char_strip (c : ascii) (s : string) :
  has_char c s = false → has_char c (PyStr.strip s) = false.
Proof. intros Hs. by apply has_char_rstrip, has_char_lstrip. Qed.

Lemma cut_at_none (sep : ascii) (s : string) :
  cut_at sep s = None ↔ has_char sep s = false.
Proof.
  induction s as [|c r IH]; simpl; [done|].
  destruct (Ascii.eqb c sep); simpl; [done|].
  rewrite <- IH. destruct (cut_at sep r) as [[a b]|]; simpl; split; done.
Qed.

Lemma cut_at_some (sep : ascii) (s a b : string) :
  cut_at sep s = Some (a, b) →
  s = a +:+ String sep b ∧ has_char sep a = false.
Proof.
  revert a b. induction s as [|c r IH]; simpl; [done|]. intros a b.
  destruct (Ascii.eqb_spec c sep) as [->|Hne].
  - by intros [= <- <-].
  - destruct (cut_at sep r) as [[a' b']|]; simpl; [|done].
    intros [= <- <-]. destruct (IH a' b' eq_refl) as [-> Ha]. split; [done|].
    simpl. rewrite Ha. by destruct (Ascii.eqb_spec c sep).
Qed.

Lemma job_fields_total (job_info : string) :
  ∃ title company,
    job_fields job_info = Ok (title, company)
    ∧ PyStr.strip title = title
    ∧ has_char "," title = false
    ∧ (has_char "," job_info = false →
         company = None ∧ title = PyStr.strip job_info)
    ∧ (has_char "," job_info = true →
         ∃ before after,
           job_info = before +:+ String "," after
           ∧ has_char "," before = false
           ∧ title = PyStr.strip before
           ∧ company = Some (PyStr.strip after)).
Proof.
  unfold job_fields, split_1.
  destruct (has_char "," job_info) eqn:Hc.
  - destruct (cut_at "," job_info) as [[a b]|] eqn:Hcut.
    + destruct (cut_at_some _ _ _ _ Hcut) as [Hs Ha].
      exists (PyStr.strip a), (Some (PyStr.strip b)). simpl.
      split; [done|]. split; [apply strip_idempotent|].
      split; [by apply has_char_strip|]. split; [done|].
      intros _. by exists a, b.
    + apply cut_at_none in Hcut. congruence.
  - exists (PyStr.strip job_info), None. simpl.
    split; [done|]. split; [apply strip_idempotent|].
    split; [by apply has_char_strip|]. done.
Qed.

(** Property X1.  Building the request never fails, whatever is typed in
    the form.  The job field is cut at its first comma only: the title has
    no comma, the company is absent exactly when the field has no comma and
    otherwise keeps any later comma; both are stripped of surrounding
    whitespace, and stripping them again changes nothing.  The other texts
    are sent as typed. *)
Theorem form_data_spec (name email job_info goals stressors assigned_sex
    favorite_scent childhood_scent : string) :
  ∃ d,
    form_data name email job_info goals stressors assigned_sex
      favorite_scent childhood_scent = Ok d
    ∧ PyStr.strip (d_job_title d) = d_job_title d
    ∧ has_char "," (d_job_title d) = false
    ∧ (has_char "," job_info = false →
         d_company d = None ∧ d_job_title d = PyStr.strip job_info)
    ∧ (has_char "," job_info = true →
         ∃ before after,
           job_info = before +:+ String "," after
           ∧ has_char "," before = false
           ∧ d_job_title d = PyStr.strip before
           ∧ d_company d = Some (PyStr.strip after)
           ∧ PyStr.strip (PyStr.strip after) = PyStr.strip after)
    ∧ d_assigned_sex d = assigned_sex_value assigned_sex
    ∧ (d_name d, d_email d, d_career_goals d, d_productivity_limiters d,
       d_scent_note d, d_childhood_scent d)
      = (name, email, goals, stressors, favorite_scent, childhood_scent).
Proof.
  destruct (job_fields_total job_info) as (title & company & Hj & Ht & Hc & Hno & Hyes).
  unfold form_data. rewrite Hj. simpl. eexists. split; [reflexivity|]. simpl.
  split; [done|]. split; [done|]. split; [done|]. split; [|done].
  intros Hcomma. destruct (Hyes Hcomma) as (before & after & E1 & E2 & E3 & E4).
  exists before, after. repeat split; try done. apply strip_idempotent.
Qed.

Example form_data_example :
  form_data "Ann" "ann@x.org" " Student , University of X, Y " "" "" "Female" "" ""
  = Ok {| d_name := "Ann"; d_email := "ann@x.org";
          d_job_title := "Student"; d_company := Some "University of X, Y";
          d_career_goals := ""; d_productivity_limiters := "";
          d_scent_note := ""; d_childhood_scent := "";
          d_assigned_sex := "female" |}.
Proof. reflexivity. Qed.

(** Property X2.  The value sent for the sex field is lower case for every
    text; on the three options of the select box it is "unspecified",
    "female" and "male", a different one for each option. *)
Theorem assigned_sex_value_spec :
  (∀ s, PyStr.lower (assigned_sex_value s) = assigned_sex_value s)
  ∧ assigned_sex_value <$> sex_options = ["unspecified"; "female"; "male"].
Proof.
  split.
  - intros s. unfold assigned_sex_value.
    destruct (negb (String.eqb s "Prefer not to say")); [apply lower_idempotent|done].
  - reflexivity.
Qed.

Lemma round_half_even_between (x : Q) (a b : Z) :
  (inject_Z a <= x <= inject_Z b)%Q → (a <= round_half_even x <= b)%Z.
Proof.
  intros [Ha Hb].
  pose proof (Qfloor_le x) as Hf1. pose proof (Qlt_floor x) as Hf2.
  rewrite inject_Z_plus in Hf2. change (inject_Z 1) with 1%Q in Hf2.
  assert (a <= Qfloor x)%Z as Haf.
  { apply Z.lt_succ_r. rewrite Zlt_Qlt. unfold Z.succ. rewrite inject_Z_plus.
    change (inject_Z 1) with 1%Q. lra. }
  assert (Qfloor x <= b)%Z as Hfb.
  { rewrite Zle_Qle. lra. }
  unfold round_half_even.
  destruct (Qcompare_spec (x - inject_Z (Qfloor x)) (1 # 2)) as [E|E|E].
  - destruct (Z.even (Qfloor x)); [lia|].
    destruct (decide (Qfloor x = b)) as [Heq|Hne]; [|lia].
    rewrite Heq in E. lra.
  - lia.
  - destruct (decide (Qfloor x = b)) as [Heq|Hne]; [|lia].
    rewrite Heq in E. lra.
Qed.


Lemma py_round_1_tenths (q : Q) : py_round q 1 = (round_half_even (q * 10) # 10)%Q.
Proof. reflexivity. Qed.

Lemma Qmake_tenths (k : Z) : (k # 10 == inject_Z k * (1 # 10))%Q.
Proof. unfold Qeq, inject_Z, Qmult. simpl. lia. Qed.


Lemma clamp01_bounds (s : Q) : (0 <= clamp01 s <= 1)%Q.
Proof.
  unfold clamp01. split; [apply Q.le_max_l|].
  apply Q.max_lub; [lra|apply Q.le_min_l].
Qed.


(** The clamped sum of line 152 is a finite value between 0 and 1 for
    every float, the infinities and [nan] included. *)
Lemma clamp_any (s : pyfloat) :
  ∃ c, max_0 (min_1 s) = Fin c ∧ (0 <= c <= 1)%Q.
Proof.
  destruct s as [q| | |].
  - destruct (clamp_value q) as (c & Hc & Hc'). exists c. split; [done|].
    rewrite Hc'. apply clamp01_bounds.
  - exists 1%Q. split; [reflexivity|lra].
  - exists 0%Q. split; [reflexivity|lra].
  - exists 1%Q. split; [reflexivity|lra].
Qed.


(** Property X3.  Whenever the mood score is computed it is a finite number
    between 0 and 100 with one decimal, also when a level is infinite or
    not a number; so the value always lies on the axis of the gauge and in
    one of its three bands. *)
Theorem mood_score_bounded (nt : jval) (r : pyfloat) :
  mood_score nt = Ok r →
  ∃ k : Z, r = Fin (k # 10)
    ∧ (0 <= k <= 1000)%Z
    ∧ (0 <= k # 10 <= 100)%Q
    ∧ existsb (in_step (k # 10)) gauge_steps = true.
Proof.
  unfold mood_score. destruct (weighted_sum nt) as [s|e]; simpl; [|done].
  intros [= <-]. unfold scale_mood.
  destruct (clamp_any s) as (c & -> & Hc0 & Hc1). simpl.
  rewrite py_round_1_tenths.
  set (k := round_half_even (c * 100 * 10)).
  assert (0 <= k <= 1000)%Z as Hk.
  { apply round_half_even_between. change (inject_Z 0) with 0%Q.
    change (inject_Z 1000) with 1000%Q. lra. }
  clearbody k. exists k. split; [done|]. split; [done|].
  assert (0 <= k # 10 <= 100)%Q as Hq.
  { rewrite (Qmake_tenths k). destruct Hk as [Hk0 Hk1].
    rewrite Zle_Qle in Hk0, Hk1. change (inject_Z 0) with 0%Q in Hk0.
    change (inject_Z 1000) with 1000%Q in Hk1. lra. }
  split; [done|].
  unfold gauge_steps, in_step. simpl.
  destruct (Qlt_le_dec 40 (k # 10)) as [H40|H40].
  - destruct (Qlt_le_dec 70 (k # 10)) as [H70|H70].
    + assert (Qle_bool 70 (k # 10) = true) as -> by (apply Qle_bool_iff; lra).
      assert (Qle_bool (k # 10) 100 = true) as -> by (apply Qle_bool_iff; lra).
      simpl. by rewrite !orb_true_r.
    + assert (Qle_bool 40 (k # 10) = true) as -> by (apply Qle_bool_iff; lra).
      assert (Qle_bool (k # 10) 70 = true) as -> by (apply Qle_bool_iff; lra).
      simpl. by rewrite !orb_true_r.
  - assert (Qle_bool 0 (k # 10) = true) as -> by (apply Qle_bool_iff; lra).
    assert (Qle_bool (k # 10) 40 = true) as -> by (apply Qle_bool_iff; lra).
    done.
Qed.

Lemma mood_score_bounded_witness :
  ∃ k : Z, Fin (1000 # 10) = Fin (k # 10) ∧ (0 <= k <= 1000)%Z
    ∧ (0 <= k # 10 <= 100)%Q
    ∧ existsb (in_step (k # 10)) gauge_steps = true.
Proof.
  apply (mood_score_bounded (JObj {[ "dopamine" := JFloat NaN ]}) (Fin (1000 # 10))).
  vm_compute. reflexivity.
Defined.

Lemma weighted_term_number (o : gmap string jval) (k : string) (w : Q) :
  weighted_term (JObj o) k w
  = match o !! k with
    | Some v => x ← as_number v; Ok (fmul x (Fin w))
    | None => Ok (Fin (0 * w))
    end.
Proof.
  unfold weighted_term. simpl. unfold dict_get.
  destruct (o !! k) as [v|]; simpl; [done|]. reflexivity.
Qed.

Lemma as_number_raises (v : jval) (e : exn) :
  as_number v = Raise e → e = TypeError ∨ e = OverflowError.
Proof.
  destruct v as [|b|z|f|s|l|m]; simpl; try (intros [= <-]; by left); try done.
  unfold float_of_int. destruct (int_fits_float z); [done|]. intros [= <-]. by right.
Qed.

Lemma mood_score_levels_ok (o : gmap string jval) :
  is_ok (mood_score (JObj o)) = levels_ok o.
Proof.
  unfold mood_score, weighted_sum, weights, weighted_sum_from, levels_ok, is_number.
  rewrite !weighted_term_number. simpl.
  repeat match goal with
  | |- context [o !! ?k] => destruct (o !! k) as [?v|]; simpl
  | |- context [as_number ?v] => destruct (as_number v) as [?f|?e]; simpl
  end; reflexivity.
Qed.

(** Property X4.  The mood score of a mapping is computed exactly when each
    of the five weighted keys that is present holds a number ([bool], [int]
    that fits a float, [float]); otherwise the computation raises
    [TypeError] or [OverflowError].  A value that is not a mapping raises
    [AttributeError]. *)
Theorem mood_score_defined (o : gmap string jval) :
  is_ok (mood_score (JObj o)) = levels_ok o
  ∧ (∀ e, mood_score (JObj o) = Raise e → e = TypeError ∨ e = OverflowError)
  ∧ (∀ v, (∀ m, v ≠ JObj m) → mood_score v = Raise AttributeError).
Proof.
  split; [apply mood_score_levels_ok|split].
  - intros e. unfold mood_score, weighted_sum, weights, weighted_sum_from.
    rewrite !weighted_term_number. simpl.
    repeat match goal with
    | |- context [o !! ?k] => destruct (o !! k) as [?v|]; simpl
    | |- context [as_number ?v] =>
        let E := fresh "E" in
        destruct (as_number v) as [?f|?e] eqn:E; simpl;
        [|intros [= <-]; by eapply as_number_raises]
    end; done.
  - intros v Hv. destruct v; try reflexivity. by destruct (Hv o0).
Qed.



Lemma count_notes_ok (acc : gmap string nat) (items : list (string * jval)) :
  Forall (λ it, is_ok (py_len it.2) = true) items →
  ∃ freq, count_notes acc items = Ok freq.
Proof.
  revert acc. induction items as [|[nt notes] rest IH]; intros acc Hall; simpl.
  - by eexists.
  - apply Forall_cons in Hall as [Hn Hrest]. simpl in Hn.
    destruct (py_len notes) as [n|e]; [|done]. simpl. by apply IH.
Qed.

Lemma count_notes_all_ok (acc freq : gmap string nat) (items : list (string * jval)) :
  count_notes acc items = Ok freq →
  Forall (λ it, is_ok (py_len it.2) = true) items.
Proof.
  revert acc. induction items as [|[nt notes] rest IH]; intros acc; simpl; [done|].
  destruct (py_len notes) as [n|e] eqn:En; simpl; [|done].
  intros Hr. apply Forall_cons. split; [simpl; by rewrite En|by eapply IH].
Qed.

Lemma count_notes_raise (acc : gmap string nat) (items : list (string * jval)) (e : exn) :
  count_notes acc items = Raise e → e = TypeError.
Proof.
  revert acc. induction items as [|[nt notes] rest IH]; intros acc; simpl; [done|].
  destruct (py_len notes) as [n|e'] eqn:En; simpl.
  - apply IH.
  - intros [= <-]. destruct notes; simpl in En; congruence.
Qed.

Lemma count_notes_lookup (acc : gmap string nat) (items : list (string * jval))
    (freq : gmap string nat) (label : string) :
  count_notes acc items = Ok freq →
  freq !! label =
    match last_labelled label items with
    | Some it => match py_len it.2 with Ok n => Some n | Raise _ => None end
    | None => acc !! label
    end.
Proof.
  revert acc. induction items as [|[nt notes] rest IH]; intros acc; simpl.
  - by intros [= <-].
  - destruct (py_len notes) as [n|e] eqn:En; simpl; [|done].
    intros Hr. rewrite (IH _ Hr). unfold last_labelled.
    rewrite filter_cons. simpl.
    destruct (decide (capitalize nt = label)) as [Heq|Hne].
    + rewrite last_cons.
      destruct (last (filter (λ it, capitalize it.1 = label) rest)) as [it|]; [done|].
      simpl. rewrite En, Heq. apply lookup_insert_eq.
    + destruct (last (filter (λ it, capitalize it.1 = label) rest)) as [it|]; [done|].
      by apply lookup_insert_ne.
Qed.

Lemma count_notes_size (acc freq : gmap string nat) (items : list (string * jval)) :
  count_notes acc items = Ok freq → (size freq ≤ size acc + length items)%nat.
Proof.
  revert acc. induction items as [|[nt notes] rest IH]; intros acc; simpl.
  - intros [= <-]. lia.
  - destruct (py_len notes) as [n|e]; simpl; [|done].
    intros Hr. specialize (IH _ Hr).
    pose proof (map_size_insert (capitalize nt) n acc) as Hs.
    destruct (acc !! capitalize nt); simpl in Hs; lia.
Qed.

(** Property X6.  The counts behind the bar chart of a scent memory: the
    loop succeeds exactly when every value of the mapping has a length, and
    fails with [TypeError] otherwise; the chart then has one bar for each
    capitalised key, at most one per item, and keys that differ only in
    case share a bar, whose count is the length of the last of them and not
    a sum. *)
Theorem nt_freq_spec (items : list (string * jval)) :
  (is_ok (nt_freq items) = true ↔ Forall (λ it, is_ok (py_len it.2) = true) items)
  ∧ (∀ e, nt_freq items = Raise e → e = TypeError)
  ∧ (∀ freq, nt_freq items = Ok freq →
       (∀ label, freq !! label =
          it ← last_labelled label items;
          match py_len it.2 with Ok n => Some n | Raise _ => None end)
       ∧ dom freq = list_to_set (capitalize <$> items.*1)
       ∧ (size freq ≤ length items)%nat).
Proof.
  unfold nt_freq. split; [|split].
  - split.
    + intros Hok. destruct (count_notes ∅ items) as [freq|e] eqn:Er; [|done].
      by eapply count_notes_all_ok.
    + intros Hall. by destruct (count_notes_ok ∅ items Hall) as [freq ->].
  - intros e He. by eapply count_notes_raise.
  - intros freq Hfreq.
    assert (Hlook : ∀ label, freq !! label =
              it ← last_labelled label items;
              match py_len it.2 with Ok n => Some n | Raise _ => None end).
    { intros label. rewrite (count_notes_lookup _ _ _ label Hfreq).
      destruct (last_labelled label items); simpl; [done|]. apply lookup_empty. }
    pose proof (count_notes_all_ok _ _ _ Hfreq) as Hall.
    split; [done|]. split.
    + apply set_eq. intros label. rewrite elem_of_dom, elem_of_list_to_set, Hlook.
      unfold last_labelled. split.
      * intros [n Hn].
        destruct (last (filter (λ it, capitalize it.1 = label) items)) as [it|] eqn:El;
          [|done].
        apply last_Some_elem_of, list_elem_of_filter in El as [Hlab Hin].
        rewrite <- Hlab. apply list_elem_of_fmap. exists it.1. split; [done|].
        apply list_elem_of_fmap. by exists it.
      * intros (nt & -> & (it & -> & Hin)%list_elem_of_fmap)%list_elem_of_fmap.
        assert (it ∈ filter (λ it', capitalize it'.1 = capitalize it.1) items) as Hf.
        { by apply list_elem_of_filter. }
        destruct (last (filter (λ it', capitalize it'.1 = capitalize it.1) items))
          as [it'|] eqn:El.
        -- simpl. apply last_Some_elem_of, list_elem_of_filter in El as [_ Hin'].
           rewrite Forall_forall in Hall. specialize (Hall it' Hin').
           destruct (py_len it'.2); [by eexists|done].
        -- apply last_None in El. rewrite El in Hf. by apply elem_of_nil in Hf.
    + pose proof (count_notes_size _ _ _ Hfreq) as Hs.
      rewrite map_size_empty in Hs. lia.
Qed.

Example nt_freq_example :
  nt_freq [ ("dopamine", JList [JStr "mint"; JStr "citrus"]);
            ("GABA", JList [JStr "lavender"]);
            ("DOPAMINE", JList [JStr "rose"]) ]
  = Ok {[ "Dopamine" := 1%nat; "Gaba" := 1%nat ]}.
Proof. by vm_compute. Qed.

Section GameLookupMore.
Context `{Builtins}.

Lemma entry_name_ok (g : jval) (n : string) :
  entry_name g = Ok n ↔ lowered_name g = Some n.
Proof.
  unfold entry_name, lowered_name.
  destruct g as [| | | | | |o]; try (split; done).
  destruct (o !! "name") as [[| | | |s| |]|]; split; try done; by intros [= <-].
Qed.

Lemma first_named_some (w : string) (gs : list jval) (g : jval) :
  first_named w gs = Ok (Some g) → g ∈ gs ∧ lowered_name g = Some w.
Proof.
  induction gs as [|g' rest IH]; simpl; [done|].
  destruct (entry_name g') as [n|e] eqn:En; simpl; [|done].
  destruct (String.eqb_spec n w) as [->|Hne].
  - intros [= <-]. split; [left|]. by apply entry_name_ok.
  - intros Hr. destruct (IH Hr) as [Hin Hl]. split; [by right|done].
Qed.

Lemma first_named_raises (w : string) (pre post : list jval) (bad : jval) :
  Forall (λ g, is_Some (lowered_name g)) pre →
  (∀ g, g ∈ pre → lowered_name g ≠ Some w) →
  lowered_name bad = None →
  ∃ e, first_named w (pre ++ bad :: post) = Raise e.
Proof.
  intros Hwf Hno Hbad. induction pre as [|g pre IH]; simpl.
  - destruct (entry_name bad) as [n|e] eqn:En; simpl; [|by eexists].
    apply entry_name_ok in En. congruence.
  - apply Forall_cons in Hwf as [[n Hn] Hwf].
    rewrite (entry_name_lowered g n Hn). simpl.
    destruct (String.eqb_spec n w) as [->|Hne].
    + destruct (Hno g); [left|done].
    + apply IH; [done|]. intros g' Hg'. apply Hno. by right.
Qed.

(** Property X7.  Whatever the closest-match function returns and however
    the table is formed, an entry that [find_game_entry] returns is an entry
    of the table, the query is a text, and the lowered name of the entry is
    the lowered and stripped query or the first close match proposed for
    it. *)
Theorem find_game_entry_sound (game_profiles : list jval) (name g : jval) :
  find_game_entry game_profiles name = Some g →
  g ∈ game_profiles
  ∧ ∃ s n, name = JStr s
      ∧ lowered_name g = Some n
      ∧ (n = PyStr.strip (PyStr.lower s)
         ∨ ∃ names, entry_names game_profiles = Ok names
             ∧ head (get_close_matches (PyStr.strip (PyStr.lower s)) names) = Some n).
Proof.
  unfold find_game_entry, find_game_entry_body.
  destruct name as [| | | |s| |]; simpl; try done.
  destruct (first_named (PyStr.strip (PyStr.lower s)) game_profiles) as [[g'|]|e] eqn:E1;
    simpl; [| |done].
  - intros [= <-]. destruct (first_named_some _ _ _ E1) as [Hin Hl].
    split; [done|]. exists s, (PyStr.strip (PyStr.lower s)). by repeat split; [|left].
  - destruct (entry_names game_profiles) as [names|e] eqn:E2; simpl; [|done].
    destruct (get_close_matches (PyStr.strip (PyStr.lower s)) names) as [|m rest] eqn:E3;
      [done|].
    destruct (first_named m game_profiles) as [[g'|]|e] eqn:E4; [|done|done].
    intros [= <-]. destruct (first_named_some _ _ _ E4) as [Hin Hl].
    split; [done|]. exists s, m. repeat split; [done|]. right.
    exists names. by rewrite E3.
Qed.

(** Property X8.  A query that is not a text finds nothing.  An entry of the
    table without a textual name hides what follows it: when no entry
    before it bears the queried name, the lookup returns [None], also when a
    later entry bears exactly that name. *)
Theorem find_game_entry_malformed (pre post : list jval) (bad : jval) (name : string) :
  Forall (λ g, is_Some (lowered_name g)) pre →
  (∀ g, g ∈ pre → lowered_name g ≠ Some (PyStr.strip (PyStr.lower name))) →
  lowered_name bad = None →
  find_game_entry (pre ++ bad :: post) (JStr name) = None
  ∧ ∀ gs v, (∀ s, v ≠ JStr s) → find_game_entry gs v = None.
Proof.
  intros Hwf Hno Hbad. split.
  - unfold find_game_entry, find_game_entry_body. simpl.
    by destruct (first_named_raises _ pre post bad Hwf Hno Hbad) as [e ->].
  - intros gs v Hv. unfold find_game_entry, find_game_entry_body.
    destruct v as [| | | |s| |]; try done. by destruct (Hv s).
Qed.

End GameLookupMore.

Lemma find_game_entry_sound_witness :
  JObj {[ "name" := JStr "Halo Infinite" ]} ∈ sample_games
  ∧ ∃ s n, JStr "halo infinit" = JStr s
      ∧ lowered_name (JObj {[ "name" := JStr "Halo Infinite" ]}) = Some n
      ∧ (n = PyStr.strip (PyStr.lower s)
         ∨ ∃ names, entry_names sample_games = Ok names
             ∧ head (get_close_matches (Builtins := reference_builtins)
                       (PyStr.strip (PyStr.lower s)) names) = Some n).
Proof.
  apply (find_game_entry_sound (H := reference_builtins) sample_games
           (JStr "halo infinit") (JObj {[ "name" := JStr "Halo Infinite" ]})).
  vm_compute. reflexivity.
Defined.

Lemma find_game_entry_malformed_witness :
  find_game_entry (H := reference_builtins)
    ([JObj {[ "name" := JStr "Halo Infinite" ]}]
       ++ JObj {[ "title" := JStr "Forza Horizon" ]}
       :: [JObj {[ "name" := JStr "Minecraft" ]}]) (JStr "Minecraft") = None
  ∧ ∀ gs v, (∀ s, v ≠ JStr s) → find_game_entry (H := reference_builtins) gs v = None.
Proof.
  apply (find_game_entry_malformed (H := reference_builtins)).
  - repeat constructor. by eexists.
  - intros g Hg. apply list_elem_of_singleton in Hg as ->. by vm_compute.
  - reflexivity.
Defined.

Section SanitizeMore.
Context `{Builtins}.

(** Property X9.  [sanitize_neuro] leaves a mapping of floats as it is:
    applied to its own result it returns that result, the infinities and
    [nan] included. *)
Theorem sanitize_neuro_floats (out : gmap string pyfloat) :
  sanitize_neuro (JFloat <$> out) = Ok out
  ∧ ∀ m, sanitize_neuro m = Ok out → sanitize_neuro (JFloat <$> out) = sanitize_neuro m.
Proof.
  assert (Hout : sanitize_neuro (JFloat <$> out) = Ok out).
  { rewrite sanitize_neuro_fmap.
    - rewrite <- map_fmap_compose. f_equal.
      rewrite <- (map_fmap_id out) at 2. apply map_fmap_ext. done.
    - intros k z. rewrite lookup_fmap. by destruct (out !! k). }
  split; [done|]. intros m Hm. by rewrite Hout, Hm.
Qed.

(** Property X10.  [sanitize_neuro] returns a mapping exactly when no value
    is an [int] too large for a float; the only exception that leaves it is
    [OverflowError], which its [except] clause does not name, and one such
    value anywhere in the mapping is enough. *)
Theorem sanitize_neuro_failure (m : gmap string jval) :
  (is_ok (sanitize_neuro m) = true ↔ ints_fit m)
  ∧ (∀ e, sanitize_neuro m = Raise e →
       e = OverflowError
       ∧ ∃ k z, m !! k = Some (JInt z) ∧ (float_int_limit <= Z.abs z)%Z)
  ∧ (∀ k z, m !! k = Some (JInt z) → (float_int_limit <= Z.abs z)%Z →
       sanitize_neuro m = Raise OverflowError).
Proof.
  destruct (sanitize_neuro_cases m) as [[Hr Hfit]|[Hr (k & z & Hk & Hz)]].
  - rewrite Hr. split; [done|]. split; [done|].
    intros k z Hk Hz. specialize (Hfit k z Hk). unfold int_fits_float in Hfit.
    apply Z.ltb_lt in Hfit. lia.
  - rewrite Hr. split; [|split].
    + split; [done|]. intros Hfit. specialize (Hfit k z Hk). congruence.
    + intros e [= <-]. split; [done|]. exists k, z. split; [done|].
      unfold int_fits_float in Hz. apply Z.ltb_ge in Hz. done.
    + done.
Qed.

End SanitizeMore.

Lemma profile_level_keys_dom (D : gset string) :
  {[ "name_email_aligned" ]} ∪ ({[ "email_style_score" ]} ∪ ({[ "work_env" ]} ∪ D))
  = D ∪ profile_level_keys.
Proof.
  unfold profile_level_keys. apply set_eq. intros x.
  rewrite !elem_of_union, !elem_of_singleton. tauto.
Qed.

Lemma not_profile_level_key (k : string) :
  k ∉ profile_level_keys →
  "name_email_aligned" ≠ k ∧ "email_style_score" ≠ k ∧ "work_env" ≠ k.
Proof.
  unfold profile_level_keys. rewrite !elem_of_union, !elem_of_singleton.
  intros Hk. repeat split; intros <-; apply Hk; auto.
Qed.

Section PayloadFacts.
Context `{Builtins}.

Lemma sanitize_neuro_ok (m : gmap string jval) (out : gmap string pyfloat) :
  sanitize_neuro m = Ok out → out = converted <$> m.
Proof.
  destruct (sanitize_neuro_cases m) as [[-> _]|[-> _]]; [|done]. by intros [= <-].
Qed.

Lemma str_or_nonempty (s d : string) : d ≠ "" → str_or s d ≠ "".
Proof.
  intros Hd. unfold str_or. destruct (String.eqb_spec s ""); [done|done].
Qed.

Lemma py_or_truthy (v d : jval) : truthy d = true → truthy (py_or v d) = true.
Proof. intros Hd. unfold py_or. by destruct (truthy v) eqn:E. Qed.

(** Property X11.  In every payload that is built, the four text fields are
    non-empty and the game, its mode and the switch time are truthy (an
    empty or missing value is replaced by its default); the levels sent are
    the levels of the profile together with [work_env],
    [email_style_score] and [name_email_aligned], whose values come from
    the profile itself and replace a level of the same name; a missing or
    falsy duration is sent as 20. *)
Theorem build_payload_fields (name : option string) (mood events goals : string)
    (profile : jval) (p : payload) :
  build_payload name mood events goals profile = Ok p →
  ∃ o nt,
    profile = JObj o
    ∧ dict_get o "neurotransmitters" (JObj ∅) = JObj nt
    ∧ p_name p ≠ "" ∧ p_current_emotion p ≠ ""
    ∧ p_recent_events p ≠ "" ∧ p_goals p ≠ ""
    ∧ truthy (p_xbox_game p) = true
    ∧ truthy (p_game_mode p) = true
    ∧ truthy (p_switch_time p) = true
    ∧ dom (p_neurotransmitters p) = dom nt ∪ profile_level_keys
    ∧ (∀ k, k ∉ profile_level_keys →
         p_neurotransmitters p !! k = converted <$> nt !! k)
    ∧ p_neurotransmitters p !! "work_env"
      = Some (converted (dict_get o "work_env" (JStr "general_consumer")))
    ∧ p_neurotransmitters p !! "email_style_score"
      = Some (converted (dict_get o "email_style_score" (JInt 0)))
    ∧ p_neurotransmitters p !! "name_email_aligned"
      = Some (converted (dict_get o "name_email_aligned" (JBool false)))
    ∧ (truthy (dict_get o "duration_minutes" JNull) = false →
         p_duration_minutes p = 20%Z).
Proof.
  unfold build_payload. destruct profile as [| | | | | |o]; try done.
  destruct (dict_get o "neurotransmitters" (JObj ∅)) as [| | | | | |nt] eqn:Hnt; try done.
  destruct (sanitize_neuro _) as [clean|e] eqn:Hclean; simpl; [|done].
  destruct (py_int _) as [duration|e] eqn:Hd; simpl; [|done].
  intros [= <-]. simpl. exists o, nt.
  apply sanitize_neuro_ok in Hclean. subst clean.
  split; [done|]. split; [done|].
  split; [by apply str_or_nonempty|]. split; [by apply str_or_nonempty|].
  split; [by apply str_or_nonempty|]. split; [by apply str_or_nonempty|].
  split; [by apply py_or_truthy|]. split; [by apply py_or_truthy|].
  split; [by apply py_or_truthy|].
  split.
  { rewrite dom_fmap_L, !dom_insert_L. apply profile_level_keys_dom. }
  split.
  { intros k Hk. rewrite lookup_fmap.
    destruct (not_profile_level_key k Hk) as (H1 & H2 & H3).
    by rewrite !lookup_insert_ne by done. }
  split.
  { rewrite lookup_fmap, lookup_insert_ne by done.
    rewrite lookup_insert_ne by done. by rewrite lookup_insert_eq. }
  split.
  { rewrite lookup_fmap, lookup_insert_ne by done. by rewrite lookup_insert_eq. }
  split.
  { by rewrite lookup_fmap, lookup_insert_eq. }
  intros Hfalsy. unfold py_or in Hd. rewrite Hfalsy in Hd. simpl in Hd. congruence.
Qed.

(** Property X12.  The payload is built outside the [try] of the reflection
    form, so what it raises is not caught: a stored profile one of whose
    levels is an [int] too large for a float makes every reflection stop
    with [OverflowError] before any request is sent, and the session state
    stays as it was. *)
Theorem reflect_submit_overflow `{Rendering} (mood events goals : string)
    (feedback now : Z) (backend : payload → http_reply) (s : session)
    (o nt : gmap string jval) (k : string) (z : Z) :
  ss_profile s = Some (JObj o) →
  o !! "neurotransmitters" = Some (JObj nt) →
  nt !! k = Some (JInt z) →
  k ∉ profile_level_keys →
  int_fits_float z = false →
  reflect_submit mood events goals feedback now backend s = (Crashed OverflowError, s).
Proof.
  intros Hp Hnt Hk Hnot Hz. unfold reflect_submit. rewrite Hp.
  unfold build_payload, dict_get at 1. rewrite Hnt. simpl.
  destruct (not_profile_level_key k Hnot) as (H1 & H2 & H3).
  erewrite (sanitize_neuro_raises _ k z); [done| |done].
  by rewrite !lookup_insert_ne by done.
Qed.

End PayloadFacts.

Lemma build_payload_fields_witness :
  p_name default_payload ≠ ""
  ∧ dom (p_neurotransmitters default_payload) = profile_level_keys
  ∧ p_duration_minutes default_payload = 20%Z.
Proof.
  destruct (build_payload_fields (H := reference_builtins) None "" "" ""
              (JObj partial_profile) default_payload)
    as (o & nt & Ho & Hnt & Hname & _ & _ & _ & _ & _ & _ & Hdom & _ & _ & _ & _ & Hd).
  - vm_compute. reflexivity.
  - injection Ho as <-. split; [exact Hname|]. split; [|reflexivity].
    unfold dict_get, partial_profile in Hnt. rewrite lookup_singleton_eq in Hnt.
    injection Hnt as <-. rewrite Hdom.
    rewrite dom_empty_L. apply (left_id_L ∅ (∪)).
Defined.

Lemma reflect_submit_overflow_witness :
  reflect_submit (H := reference_builtins) (H0 := plain_rendering)
    "happy" "" "" 3 0 journal_ok (set_profile (JObj overflow_profile) empty_session)
  = (Crashed OverflowError, set_profile (JObj overflow_profile) empty_session).
Proof.
  apply (reflect_submit_overflow (H := reference_builtins) (H0 := plain_rendering)
           "happy" "" "" 3 0 journal_ok _ overflow_profile
           {[ "histamine" := JInt (2 ^ 1024) ]} "histamine" (2 ^ 1024)).
  - reflexivity.
  - reflexivity.
  - reflexivity.
  - unfold profile_level_keys. rewrite !elem_of_union, !elem_of_singleton.
    intros [[?|?]|?]; discriminate.
  - by vm_compute.
Defined.

Section ReflectionFacts.
Context `{Builtins} `{Rendering}.
Variable game_profiles : list jval.

(** Property X13.  A reflection whose request does not come back with status
    200 and a JSON object changes nothing in the session state: without an
    answer, or with a body that is not JSON (whatever the status), the
    [except] branch reports the failure; with another status and a JSON
    body the failure of the journal is reported; with status 200 and a
    JSON value that is not an object the [except] branch reports
    [AttributeError]. *)
Theorem reflect_submit_rejected (mood events goals : string) (feedback now : Z)
    (backend : payload → http_reply) (s : session) (profile : jval) (p : payload) :
  ss_profile s = Some profile →
  build_payload (ss_name s) mood events goals profile = Ok p →
  (backend p = NoReply →
     reflect_submit mood events goals feedback now backend s
     = (ReflectionFailed RequestException, s))
  ∧ (∀ c, backend p = Reply c None →
       reflect_submit mood events goals feedback now backend s
       = (ReflectionFailed JSONDecodeError, s))
  ∧ (∀ c v, backend p = Reply c (Some v) → c ≠ 200%Z →
       reflect_submit mood events goals feedback now backend s = (JournalFailed, s))
  ∧ (∀ v, backend p = Reply 200 (Some v) → (∀ o, v ≠ JObj o) →
       reflect_submit mood events goals feedback now backend s
       = (ReflectionFailed AttributeError, s)).
Proof.
  intros Hp Hb. unfold reflect_submit. rewrite Hp, Hb.
  split; [|split; [|split]].
  - intros ->. reflexivity.
  - intros c ->. unfold reflect_block. run_simpl. by destruct (c =? 200)%Z.
  - intros c v -> Hc. unfold reflect_block. run_simpl.
    destruct (Z.eqb_spec c 200); [done|]. reflexivity.
  - intros v -> Hv. unfold reflect_block. run_simpl.
    destruct v; try reflexivity. by destruct (Hv o).
Qed.

(** Property X14.  Loading the page or submitting the profile form never
    changes the mood ledger: whatever the backend answers, the scores and
    the ratings recorded so far are the same afterwards. *)
Theorem main_keeps_ledger (s : session) :
  (ledger_scores (snd (main game_profiles PageLoad s)) = ledger_scores s
   ∧ ledger_ratings (snd (main game_profiles PageLoad s)) = ledger_ratings s)
  ∧ ∀ name reply,
      ledger_scores (snd (main game_profiles (SubmitProfile name reply) s))
      = ledger_scores s
      ∧ ledger_ratings (snd (main game_profiles (SubmitProfile name reply) s))
        = ledger_ratings s.
Proof.
  split.
  - simpl. by destruct (init_ledger_scores s) as (-> & -> & _).
  - intros name reply. simpl.
    destruct (generate_submit_ledger game_profiles name reply s) as [Ht Hf].
    destruct (generate_submit game_profiles name reply s) as [r s1]. simpl in Ht, Hf.
    assert (ledger_scores s1 = ledger_scores s) as Hs1
      by (unfold ledger_scores; by rewrite Ht).
    assert (ledger_ratings s1 = ledger_ratings s) as Hr1
      by (unfold ledger_ratings; by rewrite Hf).
    destruct r; simpl; try done;
      by destruct (init_ledger_scores s1) as (-> & -> & _).
Qed.

End ReflectionFacts.

Lemma reflect_submit_rejected_witness :
  reflect_submit (H := reference_builtins) (H0 := plain_rendering)
    "happy" "" "" 3 0 (λ _, Reply 500 None)
    (set_profile (JObj sample_profile) empty_session)
  = (ReflectionFailed JSONDecodeError, set_profile (JObj sample_profile) empty_session).
Proof.
  destruct (reflect_submit_rejected (H := reference_builtins) (H0 := plain_rendering)
              "happy" "" "" 3 0 (λ _, Reply 500 None)
              (set_profile (JObj sample_profile) empty_session) (JObj sample_profile)
              {| p_name := "Anonymous";
                 p_current_emotion := "happy";
                 p_recent_events := "None";
                 p_goals := "None";
                 p_neurotransmitters :=
                   {[ "dopamine" := Fin (8 # 10); "serotonin" := Fin (8 # 10);
                      "oxytocin" := Fin (8 # 10); "GABA" := Fin (8 # 10);
                      "cortisol" := Fin (2 # 10);
                      "work_env" := Fin (1 # 2);
                      "email_style_score" := Fin 0;
                      "name_email_aligned" := Fin 0 ]};
                 p_xbox_game := JStr "Halo Infinite";
                 p_game_mode := JStr "Solo";
                 p_duration_minutes := 20;
                 p_switch_time := JStr "After 20 mins" |})
    as (_ & Hnone & _).
  - reflexivity.
  - vm_compute. reflexivity.
  - apply (Hnone 500%Z). reflexivity.
Defined.

(** Property X15.  The timestamps of the exported table are computed at the
    export, not recorded: the last row carries the instant of the export
    and each earlier row one minute less than the next, so recording one
    more entry moves the timestamp of every earlier row. *)
Theorem date_range_shift (now : Z) (n : nat) :
  date_range now (S n) = map (λ t, t - minute)%Z (date_range now n) ++ [now]
  ∧ last (date_range now (S n)) = Some now
  ∧ date_range (now + minute) (S n) = date_range now n ++ [(now + minute)%Z].
Proof.
  assert (Hshift : ∀ t, date_range t (S n)
                        = map (λ t, t - minute)%Z (date_range t n) ++ [t]).
  { intros t. unfold date_range. rewrite seq_S, map_app. simpl. f_equal.
    - rewrite map_map. apply map_ext. intros i. lia.
    - f_equal. lia. }
  split; [apply Hshift|]. split.
  - rewrite Hshift. apply last_snoc.
  - rewrite Hshift. f_equal. unfold date_range. rewrite map_map.
    apply map_ext. intros i. lia.
Qed.

Lemma mood_balance_value (mood : string) :
  normalized_mood mood = py_round ((inject_Z (mood_balance mood) + 3) / 6)%Q 2.
Proof.
  unfold normalized_mood. rewrite !count_in_occurrences. reflexivity.
Qed.

(** Property X16.  Rounding to two decimals never merges two balances: a
    mood text with more positive than negative words, compared with
    another, gets a strictly larger score, and equal balances get the same
    score. *)
Theorem normalized_mood_monotone (m1 m2 : string) :
  ((normalized_mood m1 < normalized_mood m2)%Q ↔ (mood_balance m1 < mood_balance m2)%Z)
  ∧ ((normalized_mood m1 == normalized_mood m2)%Q ↔ mood_balance m1 = mood_balance m2).
Proof.
  rewrite !mood_balance_value.
  generalize (mood_balance m1) (mood_balance m2). intros b1 b2.
  pose proof (py_round_2_near ((inject_Z b1 + 3) / 6)) as [L1 U1].
  pose proof (py_round_2_near ((inject_Z b2 + 3) / 6)) as [L2 U2].
  set (r1 := py_round ((inject_Z b1 + 3) / 6) 2) in *.
  set (r2 := py_round ((inject_Z b2 + 3) / 6) 2) in *.
  assert (E1 : ((inject_Z b1 + 3) / 6 == (inject_Z b1 + 3) * (1 # 6))%Q) by (field).
  assert (E2 : ((inject_Z b2 + 3) / 6 == (inject_Z b2 + 3) * (1 # 6))%Q) by (field).
  rewrite E1 in L1, U1. rewrite E2 in L2, U2.
  assert (Hlt : ∀ a b : Z, (a < b)%Z → (inject_Z a + 1 <= inject_Z b)%Q).
  { intros a b Hab. assert (a + 1 <= b)%Z as Hle by lia.
    rewrite Zle_Qle in Hle. rewrite inject_Z_plus in Hle. exact Hle. }
  destruct (Z.lt_trichotomy b1 b2) as [Hb|[Hb|Hb]].
  - pose proof (Hlt _ _ Hb). split; split; intros; try lia; try lra; exfalso; lra.
  - subst b2 r2. fold r1. split; split; intros; try lia; try reflexivity; exfalso; lra.
  - pose proof (Hlt _ _ Hb). split; split; intros; try lia; try lra; exfalso; lra.
Qed.

Lemma lower_append (a b : string) :
  PyStr.lower (a +:+ b) = PyStr.lower a +:+ PyStr.lower b.
Proof. induction a as [|c a IH]; simpl; [done|]. by rewrite IH. Qed.

Lemma lower_char_space (c : ascii) :
  PyStr.is_space (PyStr.lower_char c) = PyStr.is_space c.
Proof. by destruct c as [[] [] [] [] [] [] [] []]. Qed.

Lemma split_from_append (w a b : string) (c : ascii) :
  PyStr.is_space c = true →
  PyStr.split_from w (a +:+ String c b)
  = PyStr.split_from w a ++ PyStr.split_from EmptyString b.
Proof.
  intros Hc. revert w. induction a as [|x a IH]; intros w; simpl.
  - by rewrite Hc.
  - destruct (PyStr.is_space x).
    + rewrite IH. by rewrite app_assoc.
    + apply IH.
Qed.

(** Property X17.  The balance of a mood text is counted word by word: for
    two texts joined by a whitespace character it is the sum of their
    balances, so every further positive word adds one and every further
    negative word takes one away, wherever it stands. *)
Theorem mood_balance_additive (a b : string) (c : ascii) :
  PyStr.is_space c = true →
  mood_balance (a +:+ String c b) = (mood_balance a + mood_balance b)%Z.
Proof.
  intros Hc. unfold mood_balance. rewrite <- !count_in_occurrences.
  rewrite lower_append. simpl. unfold PyStr.split.
  rewrite split_from_append by (by rewrite lower_char_space).
  rewrite !count_in_app. unfold PyStr.split. lia.
Qed.

Lemma mood_balance_additive_witness :
  mood_balance ("happy" +:+ String " " "but tired and sad") = (1 + -2)%Z.
Proof. apply (mood_balance_additive "happy" "but tired and sad" " "). reflexivity. Defined.

Lemma round_half_even_int (n : Z) : round_half_even (inject_Z n) = n.
Proof.
  unfold round_half_even. rewrite Qfloor_Z.
  destruct (Qcompare_spec (inject_Z n - inject_Z n) (1 # 2)) as [E|E|E];
    [exfalso; lra|done|exfalso; lra].
Qed.

Lemma py_round_two_decimals (q : Q) : two_decimals q → (py_round q 2 == q)%Q.
Proof.
  destruct q as [n d]. unfold two_decimals. simpl. intros ->.
  rewrite py_round_2_hundredths.
  assert ((n # 100) * 100 == inject_Z n)%Q as ->.
  { unfold Qeq, Qmult, inject_Z. simpl. lia. }
  by rewrite round_half_even_int.
Qed.

Lemma round_sqrt_hundredths_zero (v : Q) : (v == 0)%Q → round_sqrt_hundredths v = 0%Z.
Proof.
  intros Hv. unfold round_sqrt_hundredths.
  assert (Qfloor (v * 40000) = 0%Z) as ->.
  { rewrite (Qfloor_comp (v * 40000) 0); [done|]. rewrite Hv. reflexivity. }
  change (Z.sqrt 0) with 0%Z. change (Z.odd 0) with false.
  by rewrite andb_false_r.
Qed.

Lemma Qsum_constant (q : Q) (l : list Q) :
  Forall (λ x, x == q)%Q l → (Qsum l == inject_Z (Z.of_nat (length l)) * q)%Q.
Proof.
  induction 1 as [|x l Hx Hl IH]; simpl Qsum; simpl length; [ring|].
  rewrite Nat2Z.inj_succ. unfold Z.succ. rewrite inject_Z_plus.
  rewrite IH, Hx. change (inject_Z 1) with 1%Q. ring.
Qed.

Lemma mean_constant (q : Q) (l : list Q) :
  l ≠ [] → Forall (λ x, x == q)%Q l → (mean l == q)%Q.
Proof.
  intros Hne Hall. unfold mean. rewrite (Qsum_constant q l Hall).
  assert (0 < inject_Z (Z.of_nat (length l)))%Q as Hpos.
  { change 0%Q with (inject_Z 0). rewrite <- Zlt_Qlt. destruct l; [done|]. simpl. lia. }
  field. lra.
Qed.

Lemma last_constant (q d : Q) (l : list Q) :
  (d == q)%Q → Forall (λ x, x == q)%Q l → (List.last l d == q)%Q.
Proof.
  intros Hd Hall. revert d Hd. induction Hall as [|x l Hx Hl IH]; intros d Hd; [done|].
  destruct l as [|y l']; [done|]. change (List.last (x :: y :: l') d) with (List.last (y :: l') d).
  by apply IH.
Qed.

(** Property X18.  A ledger whose scores are all the same, and so every
    ledger with a single entry, is summarised as "declining" with a
    volatility of 0; the average shown is that score when it has two
    decimals. *)
Theorem summarise_constant (first : Q) (others : list Q) :
  Forall (λ x, x == first)%Q others →
  mood_trend (summarise first others) = Declining
  ∧ volatility (summarise first others) = (0 # 100)%Q
  ∧ (two_decimals first → (avg_score (summarise first others) == first)%Q).
Proof.
  intros Hall.
  assert (Hall' : Forall (λ x, x == first)%Q (first :: others)).
  { apply Forall_cons. split; [reflexivity|done]. }
  assert (Hmean : (mean (first :: others) == first)%Q) by (by apply mean_constant).
  unfold summarise. simpl. split; [|split].
  - assert (Qltb first (List.last others first) = false) as ->; [|done].
    apply Qltb_ge. rewrite (last_constant first first others); [lra|reflexivity|done].
  - rewrite round_sqrt_hundredths_zero; [done|].
    apply mean_constant; [done|].
    apply Forall_forall. intros y Hy.
    apply list_elem_of_In in Hy. apply in_map_iff in Hy as (x & <- & Hx).
    apply list_elem_of_In in Hx. rewrite Forall_forall in Hall'. rewrite (Hall' x Hx), Hmean. ring.
  - intros Htwo. rewrite Hmean. by apply py_round_two_decimals.
Qed.

Lemma summarise_constant_witness :
  mood_trend (summarise (50 # 100) [50 # 100; 50 # 100]%Q) = Declining
  ∧ volatility (summarise (50 # 100) [50 # 100; 50 # 100]%Q) = (0 # 100)%Q
  ∧ (two_decimals (50 # 100) →
     (avg_score (summarise (50 # 100) [50 # 100; 50 # 100]%Q) == 50 # 100)%Q).
Proof.
  apply (summarise_constant (50 # 100) [50 # 100; 50 # 100]%Q).
  repeat constructor.
Defined.

Lemma res_bind_ok {A B} (m : res A) (k : A → res B) (b : B) :
  m ≫= k = Ok b → ∃ a, m = Ok a ∧ k a = Ok b.
Proof. destruct m as [a|e]; simpl; [|done]. intros Hk. by exists a. Qed.

Lemma dict_item_ok (o : gmap string jval) (k : string) (v : jval) :
  dict_item o k = Ok v ↔ o !! k = Some v.
Proof.
  unfold dict_item. destruct (o !! k); split; intros [=]; by subst.
Qed.






Section GenerationFacts.
Context `{Builtins}.
Variable game_profiles : list jval.






Lemma render_ok_keys (o : gmap string jval) (v : view) :
  render game_profiles o = Ok v →
  Forall (λ k, is_Some (o !! k)) required_keys
  ∧ ∃ nt, o !! "neurotransmitters" = Some nt ∧ mood_score nt = Ok (v_mood_score v).
Proof.
  unfold render. intros Hr.
  apply res_bind_ok in Hr as (_ & _ & Hr).
  apply res_bind_ok in Hr as (v1 & E1%dict_item_ok & Hr).
  apply res_bind_ok in Hr as (nt & Ent%dict_item_ok & Hr).
  apply res_bind_ok in Hr as (mood & Emood & Hr).
  apply res_bind_ok in Hr as (_ & _ & Hr).
  apply res_bind_ok in Hr as (v2 & E2%dict_item_ok & Hr).
  apply res_bind_ok in Hr as (v3 & E3%dict_item_ok & Hr).
  apply res_bind_ok in Hr as (v4 & E4%dict_item_ok & Hr).
  apply res_bind_ok in Hr as (v5 & E5%dict_item_ok & Hr).
  apply res_bind_ok in Hr as (v6 & E6%dict_item_ok & Hr).
  apply res_bind_ok in Hr as (_ & _ & Hr).
  apply res_bind_ok in Hr as (v7 & E7%dict_item_ok & Hr).
  apply res_bind_ok in Hr as (v8 & E8%dict_item_ok & Hr).
  apply res_bind_ok in Hr as (advice & _ & Hr).
  apply res_bind_ok in Hr as (_ & _ & Hr).
  apply res_bind_ok in Hr as (_ & _ & Hr).
  injection Hr as <-. simpl. split.
  - unfold required_keys. repeat (apply Forall_cons; split; [by eexists|]). apply Forall_nil_2.
  - by exists nt.
Qed.

(** Property X20.  A twin is generated only from a reply with status 200
    whose body is a JSON object that holds [neurotransmitters] and every
    key the page reads by subscript; the mood score shown is the one of
    those levels.  A profile that lacks one of these keys is never
    generated. *)
Theorem generated_requires (name : string) (reply : http_reply) (s : session)
    (goals stressors : sentiment * pyfloat) (v : view) :
  fst (generate_submit game_profiles name reply s) = Generated goals stressors v →
  ∃ o nt,
    reply = Reply 200 (Some (JObj o))
    ∧ o !! "neurotransmitters" = Some nt
    ∧ mood_score nt = Ok (v_mood_score v)
    ∧ Forall (λ k, is_Some (o !! k)) required_keys
    ∧ snd (generate_submit game_profiles name reply s) = stored_again name o s.
Proof.
  destruct (accepted reply) as [o|] eqn:Ea.
  - rewrite (generate_submit_accepted game_profiles name reply s o Ea).
    destruct (show_sentiment_bar _) as [g|e]; [|done].
    destruct (show_sentiment_bar _) as [st|e]; [|done].
    destruct (render game_profiles o) as [v'|e] eqn:Er; [|done].
    simpl. intros [= <- <- <-].
    destruct (render_ok_keys o v' Er) as (Hkeys & nt & Hnt & Hmood).
    exists o, nt. repeat split; try done.
    unfold accepted in Ea. destruct reply as [|c [[| | | | | |o']|]]; try done.
    destruct (Z.eqb_spec c 200) as [->|]; [|done]. simpl in Ea.
    destruct (is_str (dict_get o' "status" JNull) "error"); [done|].
    destruct (has_key o' "neurotransmitters"); [|done]. by injection Ea as ->.
  - destruct (generate_submit_rejected game_profiles name reply s Ea) as [_ Hg].
    intros Hr. rewrite Hr in Hg. done.
Qed.

End GenerationFacts.


Lemma generated_requires_witness :
  ∃ o nt,
    Reply 200 (Some (JObj sample_profile)) = Reply 200 (Some (JObj o))
    ∧ o !! "neurotransmitters" = Some nt
    ∧ mood_score nt = Ok (Fin (690 # 10))
    ∧ Forall (λ k, is_Some (o !! k)) required_keys
    ∧ snd (generate_submit (H := reference_builtins) sample_games "Ann"
             (Reply 200 (Some (JObj sample_profile))) empty_session)
      = stored_again "Ann" o empty_session.
Proof.
  apply (generated_requires (H := reference_builtins) sample_games "Ann"
           (Reply 200 (Some (JObj sample_profile))) empty_session
           (Neutral, Fin (1 # 2)) (Neutral, Fin (1 # 2))
           {| v_mood_score := Fin (690 # 10);
              v_matched_game := Some (JObj {[ "name" := JStr "Halo Infinite" ]});
              v_tip := Some MorningTip |}).
  vm_compute. reflexivity.
Defined.



Section ReflectionSuccess.
Context `{Builtins} `{Rendering}.



End ReflectionSuccess.

